(** * license-agent-js: the validation agent, its cache and its grace period

    A shallow embedding of [LicenseAgent] (src/index.ts, and the second copy
    of the same class that the repository carries), of the interfaces of
    src/types.ts and of the error classes of src/errors.ts.

    Conventions of the embedding.
    - JavaScript numbers that hold milliseconds are [Z].
    - An optional property [p?: T] is an [option T] ([None] is [undefined]);
      a property [p?: T | null] is a [js T].
    - [Record<string, unknown>] is a [gmap string JsValue].
    - [Date.now()], [new Date()] and the HTTP client are the only effects.
      They are read from an environment [Env]: the n-th reading of the clock
      and the answer to the n-th request.  The agent's methods are written
      in a state monad over [World], which holds the agent object, the
      number of clock readings made so far and the log of requests sent.
    - Calls run one after the other: a call is not started while another
      one awaits its response. *)

From Stdlib Require Import ZArith Lia.
From stdpp Require Import base option gmap strings list fin_maps.

Local Open Scope string_scope.
Local Open Scope Z_scope.

(** ** JavaScript values *)

(** A property of type [T | null | undefined]. *)
Inductive js (A : Type) : Type :=
| Undefined
| Null
| Val (a : A).
Arguments Undefined {A}.
Arguments Null {A}.
Arguments Val {A} a.

(** [any] and [unknown]: whatever a JSON body or a caller can supply. *)
#[warnings="-register-all"]
Inductive JsValue : Type :=
| JUndefined
| JNull
| JBool (b : bool)
| JNum (n : Z)
| JStr (s : string)
| JArr (items : list JsValue)
| JObj (props : list (string * JsValue)).

(** A [Date] object: its time value, [None] for an invalid date. *)
Record JsDate : Type := mkDate { getTime : option Z }.

(** Truthiness of a string property: [undefined], [null] and [''] are falsy. *)
Definition truthy (r : js string) : bool :=
  match r with
  | Val s => negb (String.eqb s "")
  | _ => false
  end.

(** [r || d] for a string property [r] and a string literal [d]. *)
Definition or_else (r : js string) (d : string) : string :=
  match r with
  | Val s => if String.eqb s "" then d else s
  | _ => d
  end.

(** [r + s]: string concatenation converts [undefined] and [null] to text. *)
Definition plus_str (r : js string) (s : string) : string :=
  match r with
  | Undefined => "undefined" +:+ s
  | Null => "null" +:+ s
  | Val a => a +:+ s
  end.

(** Truthiness of an optional boolean flag, as [!result.isOffline] tests it. *)
Definition flag (f : option bool) : bool :=
  match f with
  | Some true => true
  | _ => false
  end.

(** [{ ...m }] for a record that may be [undefined] or [null]. *)
Definition spread (m : js (gmap string JsValue)) : gmap string JsValue :=
  match m with
  | Val r => r
  | _ => ∅
  end.

Definition js_of_option {A} (o : option A) : js A :=
  match o with
  | Some a => Val a
  | None => Undefined
  end.

(** ** src/errors.ts *)

#[warnings="-register-all"]
Inductive JsError : Type :=
| Error (message : string)
| InvalidConfigError (message : string)
| NetworkError (message : string) (originalError : option JsError)
| ValidationError (message : string) (reason status : js string)
    (expiresAt : js JsDate) (allowedData : JsValue).

(** [e instanceof NetworkError]. *)
Definition instanceof_NetworkError (e : JsError) : bool :=
  match e with
  | NetworkError _ _ => true
  | _ => false
  end.

(** What a call that may throw produces. *)
Inductive completion (A : Type) : Type :=
| Normal (a : A)
| Throw (e : JsError).
Arguments Normal {A} a.
Arguments Throw {A} e.

(** ** src/types.ts *)

Module LicenseAgentConfig.
Record t : Type := mk {
  serverUrl : string;
  apiKey : string;
  licenseKey : string;
  productName : string;
  cacheTTL : option Z;
  gracePeriod : option Z;
  requestTimeout : option Z;
  staticMetadata : option (gmap string JsValue);
}.
End LicenseAgentConfig.

Module ValidationRequestPayload.
Record t : Type := mk {
  metadata : js (gmap string JsValue);
}.
End ValidationRequestPayload.

Module ValidationApiResponse.
Record t : Type := mk {
  is_valid : bool;
  status : js string;
  reason : js string;
  expires_at : js string;
  allowed_data : JsValue;
}.
End ValidationApiResponse.

Module ValidationResult.
Record t : Type := mk {
  isValid : bool;
  isOffline : option bool;
  isGracePeriod : option bool;
  reason : js string;
  status : js string;
  expiresAt : js JsDate;
  allowedData : JsValue;
  error : js JsError;
  lastCheckedAt : js JsDate;
}.
End ValidationResult.

Module CacheEntry.
Record t : Type := mk {
  result : ValidationResult.t;
  timestamp : Z;
}.
End CacheEntry.

(** ** src/index.ts *)

Definition DEFAULT_CACHE_TTL : Z := 60 * 60 * 1000.
Definition DEFAULT_GRACE_PERIOD : Z := 24 * 60 * 60 * 1000.
Definition DEFAULT_REQUEST_TIMEOUT : Z := 10000.

Module ApiValidateRequest.
Record t : Type := mk {
  license_key : string;
  product_name : string;
  (** [None]: the property has been deleted from the object. *)
  metadata : option (gmap string JsValue);
}.
End ApiValidateRequest.

(** The type of [this.config]: every property but [staticMetadata] is
    required. *)
Module Config.
Record t : Type := mk {
  serverUrl : string;
  apiKey : string;
  licenseKey : string;
  productName : string;
  cacheTTL : Z;
  gracePeriod : Z;
  requestTimeout : Z;
  staticMetadata : option (gmap string JsValue);
}.
End Config.

(** The two copies of the class differ in two places of [validate]; the
    copy is a parameter of the embedding. *)
Inductive impl : Type :=
| index_ts   (* src/index.ts *)
| part_002.  (* the second copy *)

Module LicenseAgent.
Record t : Type := mk {
  config : Config.t;
  cache : option CacheEntry.t;
}.
End LicenseAgent.

(** *** The environment and the world *)

(** How [apiClient.post] settles. *)
Inductive PostOutcome : Type :=
| Resolved (data : ValidationApiResponse.t)
| Rejected (error : JsError).

Record Env : Type := mkEnv {
  (** the n-th value read from the system clock *)
  clock : nat -> Z;
  (** how the n-th request settles *)
  server : nat -> ApiValidateRequest.t -> PostOutcome;
  (** the time value of [new Date(s)] *)
  Date_parse : string -> option Z;
}.

Record World : Type := mkWorld {
  this : LicenseAgent.t;
  ticks : nat;
  posted : list ApiValidateRequest.t;
}.

Definition M (A : Type) : Type := Env -> World -> A * World.

Definition ret {A} (a : A) : M A := fun _ w => (a, w).

Definition bind {A B} (m : M A) (k : A -> M B) : M B :=
  fun env w => let (a, w') := m env w in k a env w'.

Notation "x <- m ;; k" := (bind m (fun x => k))
  (at level 20, m at level 99, k at level 200, only parsing).
Notation "m ;; k" := (bind m (fun _ => k))
  (at level 100, k at level 200, right associativity, only parsing).

(** [Date.now()] *)
Definition Date_now : M Z :=
  fun env w => (clock env (ticks w), mkWorld (this w) (S (ticks w)) (posted w)).

(** [new Date()] *)
Definition new_Date : M JsDate :=
  t <- Date_now ;; ret (mkDate (Some t)).

(** [new Date(s)] *)
Definition new_Date_of (s : string) : M JsDate :=
  fun env w => (mkDate (Date_parse env s), w).

(** [await this.apiClient.post('/licenses/validate', requestData)] *)
Definition apiClient_post (requestData : ApiValidateRequest.t) : M PostOutcome :=
  fun env w =>
    (server env (length (posted w)) requestData,
     mkWorld (this w) (ticks w) (posted w ++ [requestData])).

Definition this_config : M Config.t :=
  fun _ w => (LicenseAgent.config (this w), w).

Definition this_cache : M (option CacheEntry.t) :=
  fun _ w => (LicenseAgent.cache (this w), w).

Definition set_this_cache (c : option CacheEntry.t) : M unit :=
  fun _ w =>
    (tt, mkWorld (LicenseAgent.mk (LicenseAgent.config (this w)) c) (ticks w) (posted w)).

(** *** The class *)

(** [constructor(config)]: the agent, or the [InvalidConfigError] thrown. *)
Definition LicenseAgent_new (config : LicenseAgentConfig.t) : completion LicenseAgent.t :=
  if String.eqb (LicenseAgentConfig.serverUrl config) ""
     || String.eqb (LicenseAgentConfig.apiKey config) ""
     || String.eqb (LicenseAgentConfig.productName config) ""
  then Throw (InvalidConfigError "serverUrl, apiKey, and productName are required")
  else
    Normal
      {| LicenseAgent.config :=
           {| Config.serverUrl := LicenseAgentConfig.serverUrl config;
              Config.apiKey := LicenseAgentConfig.apiKey config;
              Config.licenseKey := LicenseAgentConfig.licenseKey config;
              Config.productName := LicenseAgentConfig.productName config;
              Config.cacheTTL :=
                default DEFAULT_CACHE_TTL (LicenseAgentConfig.cacheTTL config);
              Config.gracePeriod :=
                default DEFAULT_GRACE_PERIOD (LicenseAgentConfig.gracePeriod config);
              Config.requestTimeout :=
                default DEFAULT_REQUEST_TIMEOUT (LicenseAgentConfig.requestTimeout config);
              Config.staticMetadata := LicenseAgentConfig.staticMetadata config |};
         LicenseAgent.cache := None |}.

(** [{ ...result, error: undefined }] *)
Definition without_error (result : ValidationResult.t) : ValidationResult.t :=
  {| ValidationResult.isValid := ValidationResult.isValid result;
     ValidationResult.isOffline := ValidationResult.isOffline result;
     ValidationResult.isGracePeriod := ValidationResult.isGracePeriod result;
     ValidationResult.reason := ValidationResult.reason result;
     ValidationResult.status := ValidationResult.status result;
     ValidationResult.expiresAt := ValidationResult.expiresAt result;
     ValidationResult.allowedData := ValidationResult.allowedData result;
     ValidationResult.error := Undefined;
     ValidationResult.lastCheckedAt := ValidationResult.lastCheckedAt result |}.

(** [private updateCache(result)] *)
Definition updateCache (result : ValidationResult.t) : M unit :=
  if negb (flag (ValidationResult.isOffline result))
     && negb (flag (ValidationResult.isGracePeriod result))
  then
    timestamp <- Date_now ;;
    set_this_cache (Some (CacheEntry.mk (without_error result) timestamp))
  else ret tt.

(** [public clearCache()] *)
Definition clearCache : M unit := set_this_cache None.

(** The body of the first [if] of [validate]: the copy of the cached result
    that is returned.  The second copy of the class marks its reason. *)
Definition cachedResult (v : impl) (entry : CacheEntry.t) : ValidationResult.t :=
  let cachedResult := CacheEntry.result entry in
  match v with
  | index_ts => cachedResult
  | part_002 =>
      if negb (flag (ValidationResult.isOffline cachedResult))
         && negb (flag (ValidationResult.isGracePeriod cachedResult))
      then
        {| ValidationResult.isValid := ValidationResult.isValid cachedResult;
           ValidationResult.isOffline := ValidationResult.isOffline cachedResult;
           ValidationResult.isGracePeriod := ValidationResult.isGracePeriod cachedResult;
           ValidationResult.reason :=
             Val (plus_str (ValidationResult.reason cachedResult) " (cached)");
           ValidationResult.status := ValidationResult.status cachedResult;
           ValidationResult.expiresAt := ValidationResult.expiresAt cachedResult;
           ValidationResult.allowedData := ValidationResult.allowedData cachedResult;
           ValidationResult.error := ValidationResult.error cachedResult;
           ValidationResult.lastCheckedAt := ValidationResult.lastCheckedAt cachedResult |}
      else cachedResult
  end.

(** [{ ...this.config.staticMetadata, ...payload?.metadata }] *)
Definition merged_metadata (config : Config.t)
    (payload : option ValidationRequestPayload.t) : gmap string JsValue :=
  spread (from_option ValidationRequestPayload.metadata Undefined payload)
  ∪ spread (js_of_option (Config.staticMetadata config)).

(** [requestData], after the [delete] of an empty [metadata]. *)
Definition requestData (v : impl) (config : Config.t)
    (payload : option ValidationRequestPayload.t) : ApiValidateRequest.t :=
  let metadata := merged_metadata config payload in
  {| ApiValidateRequest.license_key :=
       match v with
       | index_ts => Config.licenseKey config
       | part_002 => Config.apiKey config
       end;
     ApiValidateRequest.product_name := Config.productName config;
     ApiValidateRequest.metadata :=
       if (size metadata =? 0)%nat then None else Some metadata |}.

(** The result built from the body of a response. *)
Definition online_result (apiResult : ValidationApiResponse.t)
    (expiresAt : js JsDate) (lastCheckedAt : JsDate) : ValidationResult.t :=
  {| ValidationResult.isValid := ValidationApiResponse.is_valid apiResult;
     ValidationResult.isOffline := None;
     ValidationResult.isGracePeriod := None;
     ValidationResult.reason := ValidationApiResponse.reason apiResult;
     ValidationResult.status := ValidationApiResponse.status apiResult;
     ValidationResult.expiresAt := expiresAt;
     ValidationResult.allowedData := ValidationApiResponse.allowed_data apiResult;
     ValidationResult.error := Undefined;
     ValidationResult.lastCheckedAt := Val lastCheckedAt |}.

(** The three results of the [catch] block. *)
Definition grace_result (lastValidResult : ValidationResult.t)
    (networkError : JsError) : ValidationResult.t :=
  {| ValidationResult.isValid := true;
     ValidationResult.isOffline := Some true;
     ValidationResult.isGracePeriod := Some true;
     ValidationResult.reason := Val "grace_period";
     ValidationResult.status := ValidationResult.status lastValidResult;
     ValidationResult.expiresAt := ValidationResult.expiresAt lastValidResult;
     ValidationResult.allowedData := ValidationResult.allowedData lastValidResult;
     ValidationResult.error := Val networkError;
     ValidationResult.lastCheckedAt := ValidationResult.lastCheckedAt lastValidResult |}.

Definition expired_result (lastValidResult : ValidationResult.t)
    (networkError : JsError) : ValidationResult.t :=
  {| ValidationResult.isValid := false;
     ValidationResult.isOffline := Some true;
     ValidationResult.isGracePeriod := Some false;
     ValidationResult.reason :=
       Val (or_else (ValidationResult.reason lastValidResult) "offline_validation_failed");
     ValidationResult.status := ValidationResult.status lastValidResult;
     ValidationResult.expiresAt := ValidationResult.expiresAt lastValidResult;
     ValidationResult.allowedData := ValidationResult.allowedData lastValidResult;
     ValidationResult.error := Val networkError;
     ValidationResult.lastCheckedAt := ValidationResult.lastCheckedAt lastValidResult |}.

Definition no_cache_result (networkError : JsError) : ValidationResult.t :=
  {| ValidationResult.isValid := false;
     ValidationResult.isOffline := Some true;
     ValidationResult.isGracePeriod := None;
     ValidationResult.reason := Val "network_error_no_cache";
     ValidationResult.status := Undefined;
     ValidationResult.expiresAt := Undefined;
     ValidationResult.allowedData := JUndefined;
     ValidationResult.error := Val networkError;
     ValidationResult.lastCheckedAt := Undefined |}.

(** The [try] ... [catch] of [validate]; [now] was read on entry. *)
Definition validate_remote (v : impl) (payload : option ValidationRequestPayload.t)
    (now : Z) : M ValidationResult.t :=
  config <- this_config ;;
  response <- apiClient_post (requestData v config payload) ;;
  match response with
  | Resolved apiResult =>
      expiresAt <-
        (match ValidationApiResponse.expires_at apiResult with
         | Val s =>
             if truthy (Val s) then (d <- new_Date_of s ;; ret (Val d)) else ret Null
         | _ => ret Null
         end) ;;
      lastCheckedAt <- new_Date ;;
      let result := online_result apiResult expiresAt lastCheckedAt in
      updateCache result ;;
      ret result
  | Rejected error =>
      let networkError :=
        NetworkError "Failed to connect to license server" (Some error) in
      cache <- this_cache ;;
      match cache with
      | Some entry =>
          let timeSinceLastCheck := now - CacheEntry.timestamp entry in
          let lastValidResult := CacheEntry.result entry in
          if ValidationResult.isValid lastValidResult
             && (timeSinceLastCheck <? Config.gracePeriod config)
          then ret (grace_result lastValidResult networkError)
          else ret (expired_result lastValidResult networkError)
      | None => ret (no_cache_result networkError)
      end
  end.

(** [public async validate(payload?)] *)
Definition validate (v : impl) (payload : option ValidationRequestPayload.t)
    : M ValidationResult.t :=
  now <- Date_now ;;
  config <- this_config ;;
  cache <- this_cache ;;
  match cache with
  | Some entry =>
      if now - CacheEntry.timestamp entry <? Config.cacheTTL config
      then ret (cachedResult v entry)
      else validate_remote v payload now
  | None => validate_remote v payload now
  end.

(** [public async forceValidate(payload?)] *)
Definition forceValidate (v : impl) (payload : option ValidationRequestPayload.t)
    : M ValidationResult.t :=
  clearCache ;;
  validate v payload.

(** What [checkOrThrow] does with the result of [validate]. *)
Definition check (result : ValidationResult.t) : completion unit :=
  if negb (ValidationResult.isValid result) then
    if flag (ValidationResult.isGracePeriod result) then Normal tt
    else
      match ValidationResult.error result with
      | Val e =>
          if instanceof_NetworkError e then Throw e
          else
            Throw (ValidationError
                     (or_else (ValidationResult.reason result) "License validation failed")
                     (ValidationResult.reason result) (ValidationResult.status result)
                     (ValidationResult.expiresAt result)
                     (ValidationResult.allowedData result))
      | _ =>
          Throw (ValidationError
                   (or_else (ValidationResult.reason result) "License validation failed")
                   (ValidationResult.reason result) (ValidationResult.status result)
                   (ValidationResult.expiresAt result)
                   (ValidationResult.allowedData result))
      end
  else Normal tt.

(** [public async checkOrThrow(payload?)] *)
Definition checkOrThrow (v : impl) (payload : option ValidationRequestPayload.t)
    : M (completion unit) :=
  result <- validate v payload ;;
  ret (check result).

(** *** Sequences of calls *)

(** The public methods a caller can invoke on an agent. *)
Inductive call : Type :=
| Call_validate (payload : option ValidationRequestPayload.t)
| Call_forceValidate (payload : option ValidationRequestPayload.t)
| Call_checkOrThrow (payload : option ValidationRequestPayload.t)
| Call_clearCache.

Definition run (v : impl) (c : call) : M unit :=
  match c with
  | Call_validate payload => _ <- validate v payload ;; ret tt
  | Call_forceValidate payload => _ <- forceValidate v payload ;; ret tt
  | Call_checkOrThrow payload => _ <- checkOrThrow v payload ;; ret tt
  | Call_clearCache => clearCache
  end.

(** The world right after [new LicenseAgent(config)]. *)
Definition new_world (agent : LicenseAgent.t) : World := mkWorld agent 0 [].

(** The worlds an agent can be in: it was constructed, then its public
    methods were called one after the other. *)
Inductive reachable (v : impl) (env : Env) : World -> Prop :=
| reachable_new config agent :
    LicenseAgent_new config = Normal agent ->
    reachable v env (new_world agent)
| reachable_call w c :
    reachable v env w ->
    reachable v env (snd (run v c env w)).

(** ** The scenarios of the test suite, as concrete worlds *)

Module Scenario.

Definition BASE_CONFIG : LicenseAgentConfig.t :=
  {| LicenseAgentConfig.serverUrl := "http:localhost:8080";
     LicenseAgentConfig.apiKey := "prod_testprefix_testsecret";
     LicenseAgentConfig.licenseKey := "license_1";
     LicenseAgentConfig.productName := "TestProduct";
     LicenseAgentConfig.cacheTTL := Some 1000;
     LicenseAgentConfig.gracePeriod := Some 5000;
     LicenseAgentConfig.requestTimeout := Some 500;
     LicenseAgentConfig.staticMetadata := None |}.

Definition VALID_RESPONSE : ValidationApiResponse.t :=
  {| ValidationApiResponse.is_valid := true;
     ValidationApiResponse.reason := Val "valid";
     ValidationApiResponse.status := Val "active";
     ValidationApiResponse.expires_at := Val "2030-01-01T00:00:00.000Z";
     ValidationApiResponse.allowed_data :=
       JObj [("features", JArr [JStr "all"])] |}.

Definition INVALID_RESPONSE_REVOKED : ValidationApiResponse.t :=
  {| ValidationApiResponse.is_valid := false;
     ValidationApiResponse.reason := Val "revoked";
     ValidationApiResponse.status := Val "revoked";
     ValidationApiResponse.expires_at := Undefined;
     ValidationApiResponse.allowed_data := JUndefined |}.

(** The agent that [new LicenseAgent(BASE_CONFIG)] builds. *)
Definition agent : LicenseAgent.t :=
  LicenseAgent.mk
    (Config.mk "http:localhost:8080" "prod_testprefix_testsecret" "license_1"
       "TestProduct" 1000 5000 500 None)
    None.

(** The server answers every request with [data]; the clock advances by
    [dt] milliseconds between two readings. *)
Definition online (data : ValidationApiResponse.t) (dt : Z) : Env :=
  {| clock := fun n => dt * Z.of_nat n;
     server := fun _ _ => Resolved data;
     Date_parse := fun _ => Some 1893456000000 |}.

(** The server answers the first request and is unreachable afterwards. *)
Definition outage (data : ValidationApiResponse.t) (dt : Z) : Env :=
  {| clock := fun n => dt * Z.of_nat n;
     server := fun n _ =>
       match n with
       | O => Resolved data
       | S _ => Rejected (Error "Connection refused")
       end;
     Date_parse := fun _ => Some 1893456000000 |}.

(** The server is never reachable. *)
Definition offline (dt : Z) : Env :=
  {| clock := fun n => dt * Z.of_nat n;
     server := fun _ _ => Rejected (Error "Network Failure");
     Date_parse := fun _ => None |}.

(** The agent of the metadata test, with a key that the call overrides. *)
Definition staticMeta : gmap string JsValue :=
  {[ "deviceType" := JStr "server"; "userId" := JStr "nobody" ]}.

Definition dynamicMeta : gmap string JsValue :=
  {[ "userId" := JStr "user123" ]}.

Definition agentWithMeta : LicenseAgent.t :=
  LicenseAgent.mk
    (Config.mk "http:localhost:8080" "prod_testprefix_testsecret" "license_1"
       "TestProduct" 1000 5000 500 (Some staticMeta))
    None.

(** What the first [validate()] returns and caches when the server answers
    [VALID_RESPONSE] and the clock advances by [dt] between readings. *)
Definition first_result (dt : Z) : ValidationResult.t :=
  online_result VALID_RESPONSE (Val (mkDate (Some 1893456000000)))
    (mkDate (Some dt)).

Definition first_entry (dt : Z) : CacheEntry.t :=
  CacheEntry.mk (first_result dt) (2 * dt).

(** The configuration of the test of the defaults. *)
Definition minimalConfig : LicenseAgentConfig.t :=
  LicenseAgentConfig.mk "url" "key" "" "p" None None None None.

(** A grace period shorter than the time to live, and no time to live. *)
Definition shortGraceConfig : LicenseAgentConfig.t :=
  LicenseAgentConfig.mk "url" "key" "" "p" (Some 5000) (Some 1000) None None.

Definition noCacheConfig : LicenseAgentConfig.t :=
  LicenseAgentConfig.mk "url" "key" "" "p" (Some 0) None None None.

Definition agentOf (config : LicenseAgentConfig.t) : LicenseAgent.t :=
  match LicenseAgent_new config with
  | Normal a => a
  | Throw _ => agent
  end.

(** The world after one [validate()] on a new agent. *)
Definition after_validate (v : impl) (env : Env) : World :=
  snd (validate v None env (new_world agent)).

End Scenario.

(** ** The paths of [validate] *)

(** The world after one reading of the clock. *)
Definition tick (w : World) : World := mkWorld (this w) (S (ticks w)) (posted w).

(** The value [validate] reads into [now] when it is called in [w]. *)
Definition now_at (env : Env) (w : World) : Z := clock env (ticks w).

(** The call goes to the server: the cache is empty or its entry is stale. *)
Definition attempts_remote (env : Env) (w : World) : Prop :=
  match LicenseAgent.cache (this w) with
  | Some entry =>
      Config.cacheTTL (LicenseAgent.config (this w))
      <= now_at env w - CacheEntry.timestamp entry
  | None => True
  end.

(** How the request that [validate] would send from [w] settles. *)
Definition attempt (v : impl) (payload : option ValidationRequestPayload.t)
    (env : Env) (w : World) : PostOutcome :=
  server env (length (posted w))
    (requestData v (LicenseAgent.config (this w)) payload).

(** The error of the [catch] block. *)
Definition networkError (cause : JsError) : JsError :=
  NetworkError "Failed to connect to license server" (Some cause).

(** A result that [updateCache] accepts. *)
Definition clean (result : ValidationResult.t) : Prop :=
  flag (ValidationResult.isOffline result) = false
  /\ flag (ValidationResult.isGracePeriod result) = false.

(** [apiResult.expires_at ? new Date(apiResult.expires_at) : null] *)
Definition expiresAt_of (env : Env) (data : ValidationApiResponse.t) : js JsDate :=
  if truthy (ValidationApiResponse.expires_at data)
  then
    match ValidationApiResponse.expires_at data with
    | Val s => Val (mkDate (Date_parse env s))
    | _ => Null
    end
  else Null.

(** The entry was written from the answer to a request of the log. *)
Definition from_remote_check (env : Env) (w : World) (entry : CacheEntry.t) : Prop :=
  exists (k : nat) (req : ApiValidateRequest.t) (data : ValidationApiResponse.t)
         (lastCheckedAt : JsDate),
    posted w !! k = Some req
    /\ server env k req = Resolved data
    /\ CacheEntry.result entry = online_result data (expiresAt_of env data) lastCheckedAt.

(** The invariant of the cache slot. *)
Definition cache_inv (env : Env) (w : World) : Prop :=
  match LicenseAgent.cache (this w) with
  | Some entry => from_remote_check env w entry
  | None => True
  end.

(** The invariant of a [ValidationResult]. *)
Definition result_inv (result : ValidationResult.t) : Prop :=
  (ValidationResult.isGracePeriod result = Some true ->
   ValidationResult.isOffline result = Some true)
  /\ (ValidationResult.isOffline result = Some true ->
      exists message cause,
        ValidationResult.error result = Val (NetworkError message cause)).

(** [e instanceof ValidationError] *)
Definition instanceof_ValidationError (e : JsError) : bool :=
  match e with
  | ValidationError _ _ _ _ _ => true
  | _ => false
  end.

(** The clock never runs backwards. *)
Definition monotone_clock (env : Env) : Prop :=
  forall n m : nat, (n <= m)%nat -> clock env n <= clock env m.

(** The entry was stamped by a reading of the clock made before now, and its
    result was dated by the reading just before that one. *)
Definition stamped_before (env : Env) (w : World) (entry : CacheEntry.t) : Prop :=
  exists k : nat,
    (S k < ticks w)%nat
    /\ CacheEntry.timestamp entry = clock env (S k)
    /\ ValidationResult.lastCheckedAt (CacheEntry.result entry)
       = Val (mkDate (Some (clock env k))).

Definition cache_stamped (env : Env) (w : World) : Prop :=
  match LicenseAgent.cache (this w) with
  | Some entry => stamped_before env w entry
  | None => True
  end.

(** The stored result still covers a failed request at [now]. *)
Definition in_grace (config : Config.t) (now : Z) (entry : CacheEntry.t) : Prop :=
  ValidationResult.isValid (CacheEntry.result entry) = true
  /\ now - CacheEntry.timestamp entry < Config.gracePeriod config.

Section Paths.

Variables (v : impl) (payload : option ValidationRequestPayload.t).
Variables (env : Env) (w : World).

Let config := LicenseAgent.config (this w).

Lemma validate_fresh entry :
  LicenseAgent.cache (this w) = Some entry ->
  now_at env w - CacheEntry.timestamp entry < Config.cacheTTL config ->
  validate v payload env w = (cachedResult v entry, tick w).
Proof.
  intros Hc Hage. unfold validate, bind, Date_now, this_config, this_cache; simpl.
  rewrite Hc. apply Z.ltb_lt in Hage. unfold now_at, config in Hage.
  rewrite Hage. reflexivity.
Qed.

Lemma validate_stale :
  attempts_remote env w ->
  validate v payload env w = validate_remote v payload (now_at env w) env (tick w).
Proof.
  unfold attempts_remote, validate, bind, Date_now, this_config, this_cache; simpl.
  destruct (LicenseAgent.cache (this w)) as [entry|]; [|reflexivity].
  intros Hage. apply Z.ltb_ge in Hage. unfold now_at in Hage.
  rewrite Hage. reflexivity.
Qed.

Lemma validate_remote_rejected now cause :
  attempt v payload env w = Rejected cause ->
  validate_remote v payload now env (tick w)
  = (match LicenseAgent.cache (this w) with
     | Some entry =>
         if ValidationResult.isValid (CacheEntry.result entry)
            && (now - CacheEntry.timestamp entry <? Config.gracePeriod config)
         then grace_result (CacheEntry.result entry) (networkError cause)
         else expired_result (CacheEntry.result entry) (networkError cause)
     | None => no_cache_result (networkError cause)
     end,
     mkWorld (this w) (S (ticks w))
       (posted w ++ [requestData v config payload])).
Proof.
  unfold attempt. intros Hpost.
  unfold validate_remote, bind, this_config, apiClient_post, this_cache; simpl.
  rewrite Hpost. simpl.
  destruct (LicenseAgent.cache (this w)) as [entry|]; [|reflexivity].
  destruct (_ && _); reflexivity.
Qed.

Lemma validate_remote_resolved now data :
  attempt v payload env w = Resolved data ->
  validate_remote v payload now env (tick w)
  = (let result :=
       online_result data (expiresAt_of env data) (mkDate (Some (clock env (S (ticks w))))) in
     (result,
      mkWorld
        (LicenseAgent.mk config
           (Some (CacheEntry.mk result (clock env (S (S (ticks w)))))))
        (S (S (S (ticks w))))
        (posted w ++ [requestData v config payload]))).
Proof.
  unfold attempt. intros Hpost.
  unfold validate_remote, bind, this_config, apiClient_post; simpl.
  rewrite Hpost. unfold expiresAt_of.
  destruct (ValidationApiResponse.expires_at data) as [| |s]; simpl;
    try destruct (String.eqb s ""); reflexivity.
Qed.

End Paths.

(** Every call either answers from a fresh entry or goes to the server. *)
Lemma fresh_or_remote (env : Env) (w : World) :
  (exists entry,
      LicenseAgent.cache (this w) = Some entry
      /\ now_at env w - CacheEntry.timestamp entry
         < Config.cacheTTL (LicenseAgent.config (this w)))
  \/ attempts_remote env w.
Proof.
  unfold attempts_remote.
  destruct (LicenseAgent.cache (this w)) as [entry|]; [|now right].
  destruct (Z_lt_ge_dec (now_at env w - CacheEntry.timestamp entry)
              (Config.cacheTTL (LicenseAgent.config (this w)))) as [Hlt|Hge].
  - left. eauto.
  - right. lia.
Qed.

(** [validate] keeps the configuration. *)
Lemma validate_config v payload env w :
  LicenseAgent.config (this (snd (validate v payload env w)))
  = LicenseAgent.config (this w).
Proof.
  destruct (fresh_or_remote env w) as [(entry & Hc & Hage)|Hremote].
  - now rewrite (validate_fresh v payload env w entry Hc Hage).
  - rewrite (validate_stale v payload env w Hremote).
    destruct (attempt v payload env w) as [data|cause] eqn:Hpost.
    + now rewrite (validate_remote_resolved v payload env w _ data Hpost).
    + now rewrite (validate_remote_rejected v payload env w _ cause Hpost).
Qed.

Lemma from_remote_check_app env w req entry :
  from_remote_check env w entry ->
  from_remote_check env (mkWorld (this w) (S (ticks w)) (posted w ++ [req])) entry.
Proof.
  intros (k & r & data & d & Hk & Hs & Hr).
  exists k, r, data, d. simpl. split; [|easy].
  now apply lookup_app_l_Some.
Qed.

Lemma validate_cache_inv v payload env w :
  cache_inv env w -> cache_inv env (snd (validate v payload env w)).
Proof.
  intros Hinv.
  destruct (fresh_or_remote env w) as [(entry & Hc & Hage)|Hremote].
  - now rewrite (validate_fresh v payload env w entry Hc Hage).
  - rewrite (validate_stale v payload env w Hremote).
    destruct (attempt v payload env w) as [data|cause] eqn:Hpost.
    + rewrite (validate_remote_resolved v payload env w _ data Hpost).
      unfold cache_inv; simpl.
      exists (length (posted w)), (requestData v (LicenseAgent.config (this w)) payload),
        data, (mkDate (Some (clock env (S (ticks w))))).
      simpl. split; [|easy].
      rewrite lookup_app_r by lia. now rewrite Nat.sub_diag.
    + rewrite (validate_remote_rejected v payload env w _ cause Hpost).
      unfold cache_inv in *; simpl.
      destruct (LicenseAgent.cache (this w)) as [entry|]; [|exact I].
      now apply from_remote_check_app.
Qed.

Lemma run_cache_inv v c env w :
  cache_inv env w -> cache_inv env (snd (run v c env w)).
Proof.
  intros Hinv. destruct c as [payload|payload|payload|]; simpl.
  - unfold bind, ret.
    pose proof (validate_cache_inv v payload env w Hinv) as H.
    now destruct (validate v payload env w).
  - unfold forceValidate, bind, ret, clearCache, set_this_cache.
    match goal with
    | |- context [validate v payload env ?w0] =>
        pose proof (validate_cache_inv v payload env w0 I) as H;
        now destruct (validate v payload env w0)
    end.
  - unfold checkOrThrow, bind, ret.
    pose proof (validate_cache_inv v payload env w Hinv) as H.
    now destruct (validate v payload env w).
  - exact I.
Qed.

Lemma reachable_cache_inv v env w : reachable v env w -> cache_inv env w.
Proof.
  induction 1 as [config agent Hnew|w c _ IH].
  - unfold LicenseAgent_new in Hnew.
    destruct (_ || _); [discriminate|].
    injection Hnew as <-. exact I.
  - now apply run_cache_inv.
Qed.

(** ** The [catch] block: grace period, expired grace, no cache *)

(** C2.  A [validate] call goes to the server and the request fails, while
    the cache holds an entry whose stored result is valid and whose age
    [now - entry.timestamp] is less than [gracePeriod].  The result then has
    [isValid = true], [isOffline = true], [isGracePeriod = true],
    [reason = "grace_period"] and a [NetworkError] that wraps the failure of
    the transport; status, expiry, allowed data and [lastCheckedAt] are those
    of the stored result. *)
Theorem validate_grace_period (v : impl) (payload : option ValidationRequestPayload.t)
    (env : Env) (w : World) (entry : CacheEntry.t) (cause : JsError) :
  LicenseAgent.cache (this w) = Some entry ->
  attempts_remote env w ->
  attempt v payload env w = Rejected cause ->
  ValidationResult.isValid (CacheEntry.result entry) = true ->
  now_at env w - CacheEntry.timestamp entry
    < Config.gracePeriod (LicenseAgent.config (this w)) ->
  let stored := CacheEntry.result entry in
  let result := fst (validate v payload env w) in
  ValidationResult.isValid result = true
  /\ ValidationResult.isOffline result = Some true
  /\ ValidationResult.isGracePeriod result = Some true
  /\ ValidationResult.reason result = Val "grace_period"
  /\ ValidationResult.error result
     = Val (NetworkError "Failed to connect to license server" (Some cause))
  /\ ValidationResult.status result = ValidationResult.status stored
  /\ ValidationResult.expiresAt result = ValidationResult.expiresAt stored
  /\ ValidationResult.allowedData result = ValidationResult.allowedData stored
  /\ ValidationResult.lastCheckedAt result = ValidationResult.lastCheckedAt stored.
Proof.
  intros Hc Hremote Hpost Hvalid Hgrace stored result. subst stored result.
  rewrite (validate_stale v payload env w Hremote).
  rewrite (validate_remote_rejected v payload env w _ cause Hpost).
  rewrite Hc, Hvalid. apply Z.ltb_lt in Hgrace. rewrite Hgrace.
  simpl. repeat split.
Qed.

(** C3.  A [validate] call goes to the server and the request fails, while
    the cache holds an entry whose stored result is invalid or whose age is
    at least [gracePeriod].  The result then is the stored result with
    [isValid = false], [isOffline = true], [isGracePeriod = false], the
    [NetworkError], and as reason the stored reason, or
    ["offline_validation_failed"] where [||] finds the stored reason falsy. *)
Theorem validate_expired_grace (v : impl) (payload : option ValidationRequestPayload.t)
    (env : Env) (w : World) (entry : CacheEntry.t) (cause : JsError) :
  LicenseAgent.cache (this w) = Some entry ->
  attempts_remote env w ->
  attempt v payload env w = Rejected cause ->
  ValidationResult.isValid (CacheEntry.result entry) = false
  \/ Config.gracePeriod (LicenseAgent.config (this w))
     <= now_at env w - CacheEntry.timestamp entry ->
  let stored := CacheEntry.result entry in
  let result := fst (validate v payload env w) in
  ValidationResult.isValid result = false
  /\ ValidationResult.isOffline result = Some true
  /\ ValidationResult.isGracePeriod result = Some false
  /\ (forall s, ValidationResult.reason stored = Val s -> s <> "" ->
        ValidationResult.reason result = Val s)
  /\ (ValidationResult.reason stored = Undefined
       \/ ValidationResult.reason stored = Null
       \/ ValidationResult.reason stored = Val "" ->
       ValidationResult.reason result = Val "offline_validation_failed")
  /\ ValidationResult.error result
     = Val (NetworkError "Failed to connect to license server" (Some cause))
  /\ ValidationResult.status result = ValidationResult.status stored
  /\ ValidationResult.expiresAt result = ValidationResult.expiresAt stored
  /\ ValidationResult.allowedData result = ValidationResult.allowedData stored
  /\ ValidationResult.lastCheckedAt result = ValidationResult.lastCheckedAt stored.
Proof.
  intros Hc Hremote Hpost Hwhy stored result. subst stored result.
  rewrite (validate_stale v payload env w Hremote).
  rewrite (validate_remote_rejected v payload env w _ cause Hpost).
  rewrite Hc.
  assert (ValidationResult.isValid (CacheEntry.result entry)
          && (now_at env w - CacheEntry.timestamp entry
              <? Config.gracePeriod (LicenseAgent.config (this w))) = false) as ->.
  { destruct Hwhy as [->|Hage]; [reflexivity|].
    apply Z.ltb_ge in Hage. rewrite Hage. apply andb_false_r. }
  simpl. repeat split.
  - intros s -> Hs. simpl. apply String.eqb_neq in Hs. now rewrite Hs.
  - intros [-> | [-> | ->]]; reflexivity.
Qed.

(** C4.  A [validate] call on an empty cache whose request fails returns
    [isValid = false], [isOffline = true], [reason = "network_error_no_cache"],
    a [NetworkError] that wraps the failure of the transport, and no
    [lastCheckedAt]. *)
Theorem validate_no_cache_offline (v : impl) (payload : option ValidationRequestPayload.t)
    (env : Env) (w : World) (cause : JsError) :
  LicenseAgent.cache (this w) = None ->
  attempt v payload env w = Rejected cause ->
  let result := fst (validate v payload env w) in
  ValidationResult.isValid result = false
  /\ ValidationResult.isOffline result = Some true
  /\ ValidationResult.reason result = Val "network_error_no_cache"
  /\ ValidationResult.error result
     = Val (NetworkError "Failed to connect to license server" (Some cause))
  /\ ValidationResult.lastCheckedAt result = Undefined.
Proof.
  intros Hc Hpost result. subst result.
  assert (attempts_remote env w) as Hremote
    by (unfold attempts_remote; now rewrite Hc).
  rewrite (validate_stale v payload env w Hremote).
  rewrite (validate_remote_rejected v payload env w _ cause Hpost).
  rewrite Hc. simpl. repeat split.
Qed.

(** ** The [try] block: the request and the online result *)

(** C6.  A [validate] call goes to the server and the request succeeds.  The
    result copies the validity flag, status, reason and allowed data of the
    body; its [expiresAt] is the date parsed from the expiry string, or
    [null] when the body has none; its [lastCheckedAt] is the clock read
    when the response has arrived; [isOffline], [isGracePeriod] and [error]
    are [undefined]; and on return the cache holds this result, stamped
    with the next reading of the clock. *)
Theorem validate_online_success (v : impl) (payload : option ValidationRequestPayload.t)
    (env : Env) (w : World) (data : ValidationApiResponse.t) :
  attempts_remote env w ->
  attempt v payload env w = Resolved data ->
  let result := fst (validate v payload env w) in
  let w' := snd (validate v payload env w) in
  ValidationResult.isValid result = ValidationApiResponse.is_valid data
  /\ ValidationResult.status result = ValidationApiResponse.status data
  /\ ValidationResult.reason result = ValidationApiResponse.reason data
  /\ ValidationResult.allowedData result = ValidationApiResponse.allowed_data data
  /\ (forall s, ValidationApiResponse.expires_at data = Val s -> s <> "" ->
        ValidationResult.expiresAt result = Val (mkDate (Date_parse env s)))
  /\ (ValidationApiResponse.expires_at data = Undefined
       \/ ValidationApiResponse.expires_at data = Null ->
       ValidationResult.expiresAt result = Null)
  /\ ValidationResult.lastCheckedAt result
     = Val (mkDate (Some (clock env (S (ticks w)))))
  /\ ValidationResult.isOffline result = None
  /\ ValidationResult.isGracePeriod result = None
  /\ ValidationResult.error result = Undefined
  /\ LicenseAgent.cache (this w')
     = Some (CacheEntry.mk result (clock env (S (S (ticks w))))).
Proof.
  intros Hremote Hpost result w'. subst result w'.
  rewrite (validate_stale v payload env w Hremote).
  rewrite (validate_remote_resolved v payload env w _ data Hpost).
  simpl. repeat split.
  - intros s Hs Hne. unfold expiresAt_of. rewrite Hs. simpl.
    apply String.eqb_neq in Hne. now rewrite Hne.
  - unfold expiresAt_of. intros [-> | ->]; reflexivity.
Qed.

(** The merge [{ ...a, ...b }], key by key. *)
Lemma lookup_merged (a b : gmap string JsValue) (k : string) :
  (b ∪ a) !! k = match b !! k with Some x => Some x | None => a !! k end.
Proof.
  rewrite lookup_union. destruct (b !! k), (a !! k); reflexivity.
Qed.

(** C10.  The request that [validate] sends carries the product name, a
    license key, and as metadata the static metadata of the configuration
    overridden key by key by the metadata of the call; the [metadata]
    property is absent from the request when the merged record has no key. *)
Theorem validate_request_metadata (v : impl)
    (payload : option ValidationRequestPayload.t) (env : Env) (w : World) :
  attempts_remote env w ->
  let config := LicenseAgent.config (this w) in
  let static : gmap string JsValue := default ∅ (Config.staticMetadata config) in
  let dynamic : gmap string JsValue :=
    match payload with
    | Some p =>
        match ValidationRequestPayload.metadata p with
        | Val m => m
        | _ => ∅
        end
    | None => ∅
    end in
  exists req : ApiValidateRequest.t,
    posted (snd (validate v payload env w)) = (posted w ++ [req])%list
    /\ ApiValidateRequest.product_name req = Config.productName config
    /\ ApiValidateRequest.license_key req
       = match v with
         | index_ts => Config.licenseKey config
         | part_002 => Config.apiKey config
         end
    /\ ((forall k, static !! k = None /\ dynamic !! k = None) ->
        ApiValidateRequest.metadata req = None)
    /\ ((exists k, is_Some (static !! k) \/ is_Some (dynamic !! k)) ->
        exists m : gmap string JsValue,
          ApiValidateRequest.metadata req = Some m
          /\ forall k,
               m !! k = match dynamic !! k with
                        | Some x => Some x
                        | None => static !! k
                        end).
Proof.
  intros Hremote config static dynamic.
  exists (requestData v config payload).
  assert (merged_metadata config payload = dynamic ∪ static) as Hmerged.
  { unfold merged_metadata, dynamic, static.
    destruct payload as [[[| |m]]|], (Config.staticMetadata config); reflexivity. }
  split; [|split; [reflexivity|split; [reflexivity|split]]].
  - rewrite (validate_stale v payload env w Hremote).
    destruct (attempt v payload env w) as [data|cause] eqn:Hpost.
    + now rewrite (validate_remote_resolved v payload env w _ data Hpost).
    + now rewrite (validate_remote_rejected v payload env w _ cause Hpost).
  - intros Hnone. unfold requestData; simpl. fold config. rewrite Hmerged.
    assert (dynamic ∪ static = ∅) as ->.
    { apply map_eq. intros k. rewrite lookup_merged, lookup_empty.
      destruct (Hnone k) as [-> ->]. reflexivity. }
    now rewrite map_size_empty.
  - intros (k & Hk). unfold requestData; simpl. fold config. rewrite Hmerged.
    destruct (Nat.eqb_spec (size (dynamic ∪ static)) 0) as [Hsize|Hsize].
    + apply map_size_empty_iff in Hsize.
      assert ((dynamic ∪ static) !! k = None) as Hlook
        by (rewrite Hsize; apply lookup_empty).
      rewrite lookup_merged in Hlook.
      destruct (dynamic !! k) eqn:Hd; [discriminate|].
      destruct Hk as [[x Hx]|[x Hx]]; congruence.
    + exists (dynamic ∪ static). split; [reflexivity|].
      intros k'. apply lookup_merged.
Qed.

(** ** [forceValidate] *)

Lemma attempt_clearCache v payload env w :
  attempt v payload env (snd (clearCache env w)) = attempt v payload env w.
Proof. reflexivity. Qed.

(** C5.  [forceValidate(payload)] is [clearCache()] followed by
    [validate(payload)].  It always sends a request; when that request
    fails, the result is the one of the empty cache ([isValid = false],
    [isOffline = true], [reason = "network_error_no_cache"], no grace
    period), whatever the cache held before the call. *)
Theorem forceValidate_clears_first (v : impl)
    (payload : option ValidationRequestPayload.t) (env : Env) (w : World) :
  forceValidate v payload env w = validate v payload env (snd (clearCache env w))
  /\ posted (snd (forceValidate v payload env w))
     = (posted w ++ [requestData v (LicenseAgent.config (this w)) payload])%list
  /\ forall cause,
       attempt v payload env w = Rejected cause ->
       let result := fst (forceValidate v payload env w) in
       ValidationResult.isValid result = false
       /\ ValidationResult.isOffline result = Some true
       /\ ValidationResult.isGracePeriod result = None
       /\ ValidationResult.reason result = Val "network_error_no_cache"
       /\ ValidationResult.error result
          = Val (NetworkError "Failed to connect to license server" (Some cause)).
Proof.
  assert (forceValidate v payload env w
          = validate v payload env (snd (clearCache env w))) as Heq by reflexivity.
  assert (attempts_remote env (snd (clearCache env w))) as Hremote by exact I.
  rewrite Heq, (validate_stale v payload env _ Hremote).
  split; [reflexivity|split].
  - destruct (attempt v payload env w) as [data|cause] eqn:Hpost;
      rewrite <- attempt_clearCache in Hpost.
    + now rewrite (validate_remote_resolved v payload env _ _ data Hpost).
    + now rewrite (validate_remote_rejected v payload env _ _ cause Hpost).
  - intros cause Hpost. rewrite <- attempt_clearCache in Hpost.
    rewrite (validate_remote_rejected v payload env _ _ cause Hpost).
    simpl. repeat split.
Qed.

(** ** [checkOrThrow] *)

(** C9.  [checkOrThrow] returns normally when the result of [validate] has
    [isValid = true] or [isGracePeriod = true].  When the result is invalid
    without grace period and carries a [NetworkError], that error is thrown.
    Otherwise a [ValidationError] is thrown with the reason, status, expiry
    and allowed data of the result; its message is the reason, or
    ["License validation failed"] when the result has no reason. *)
Theorem checkOrThrow_policy (v : impl) (payload : option ValidationRequestPayload.t)
    (env : Env) (w : World) :
  let result := fst (validate v payload env w) in
  let outcome := fst (checkOrThrow v payload env w) in
  snd (checkOrThrow v payload env w) = snd (validate v payload env w)
  /\ (ValidationResult.isValid result = true
       \/ ValidationResult.isGracePeriod result = Some true ->
       outcome = Normal tt)
  /\ (ValidationResult.isValid result = false ->
      ValidationResult.isGracePeriod result <> Some true ->
      forall e,
        ValidationResult.error result = Val e ->
        instanceof_NetworkError e = true ->
        outcome = Throw e)
  /\ (ValidationResult.isValid result = false ->
      ValidationResult.isGracePeriod result <> Some true ->
      (forall e, ValidationResult.error result = Val e ->
                 instanceof_NetworkError e = false) ->
      exists message,
        outcome
        = Throw (ValidationError message
                   (ValidationResult.reason result) (ValidationResult.status result)
                   (ValidationResult.expiresAt result)
                   (ValidationResult.allowedData result))
        /\ (forall s, ValidationResult.reason result = Val s -> s <> "" ->
             message = s)
        /\ (ValidationResult.reason result = Undefined
            \/ ValidationResult.reason result = Null ->
            message = "License validation failed")).
Proof.
  unfold checkOrThrow, bind, ret.
  destruct (validate v payload env w) as [result w']; simpl.
  unfold check.
  split; [reflexivity|split; [|split]].
  - intros [-> | ->]; [reflexivity|]. now destruct (ValidationResult.isValid result).
  - intros -> Hgrace e -> He. simpl.
    destruct (ValidationResult.isGracePeriod result) as [[|]|]; simpl;
      try congruence; now rewrite He.
  - intros -> Hgrace Herr. simpl.
    exists (or_else (ValidationResult.reason result) "License validation failed").
    split; [|split].
    + destruct (ValidationResult.isGracePeriod result) as [[|]|]; simpl;
        try congruence;
        destruct (ValidationResult.error result) as [| |e] eqn:He;
        try reflexivity; now rewrite (Herr e eq_refl).
    + intros s -> Hs. simpl. apply String.eqb_neq in Hs. now rewrite Hs.
    + intros [-> | ->]; reflexivity.
Qed.

(** ** The cache slot *)

Lemma updateCache_clean result env w :
  clean result ->
  updateCache result env w
  = (tt,
     mkWorld
       (LicenseAgent.mk (LicenseAgent.config (this w))
          (Some (CacheEntry.mk (without_error result) (now_at env w))))
       (S (ticks w)) (posted w)).
Proof.
  intros [Hoff Hgrace]. unfold updateCache. now rewrite Hoff, Hgrace.
Qed.

Lemma updateCache_degraded result env w :
  ~ clean result -> updateCache result env w = (tt, w).
Proof.
  unfold clean, updateCache. intros Hnot.
  destruct (flag (ValidationResult.isOffline result)),
           (flag (ValidationResult.isGracePeriod result));
    try reflexivity.
  now destruct Hnot.
Qed.

(** A degraded answer leaves the agent as it was. *)
Lemma validate_degraded_keeps_agent v payload env w :
  ~ clean (fst (validate v payload env w)) ->
  this (snd (validate v payload env w)) = this w.
Proof.
  destruct (fresh_or_remote env w) as [(entry & Hc & Hage)|Hremote].
  { now rewrite (validate_fresh v payload env w entry Hc Hage). }
  rewrite (validate_stale v payload env w Hremote).
  destruct (attempt v payload env w) as [data|cause] eqn:Hpost.
  - rewrite (validate_remote_resolved v payload env w _ data Hpost). simpl.
    intros Hdeg. destruct Hdeg. now split.
  - now rewrite (validate_remote_rejected v payload env w _ cause Hpost).
Qed.

(** C7.  In every world an agent can reach, the cache slot is empty or holds
    the result of a request that the server answered, with [isOffline],
    [isGracePeriod] and [error] undefined.  [updateCache] stores its
    argument, stamped with the current reading of the clock, when neither
    [isOffline] nor [isGracePeriod] is set, and does nothing otherwise;
    [clearCache] empties the slot; a [validate] call that answers with an
    offline or grace-period result leaves the slot as it was. *)
Theorem cache_holds_only_online_results (v : impl) (env : Env) :
  (forall w, reachable v env w ->
     match LicenseAgent.cache (this w) with
     | Some entry =>
         from_remote_check env w entry
         /\ ValidationResult.isOffline (CacheEntry.result entry) = None
         /\ ValidationResult.isGracePeriod (CacheEntry.result entry) = None
         /\ ValidationResult.error (CacheEntry.result entry) = Undefined
     | None => True
     end)
  /\ (forall result w,
       flag (ValidationResult.isOffline result) = false
       /\ flag (ValidationResult.isGracePeriod result) = false ->
       let w' := snd (updateCache result env w) in
       LicenseAgent.cache (this w')
       = Some (CacheEntry.mk (without_error result) (clock env (ticks w)))
       /\ LicenseAgent.config (this w') = LicenseAgent.config (this w)
       /\ posted w' = posted w)
  /\ (forall result w,
       flag (ValidationResult.isOffline result) = true
       \/ flag (ValidationResult.isGracePeriod result) = true ->
       snd (updateCache result env w) = w)
  /\ (forall w, LicenseAgent.cache (this (snd (clearCache env w))) = None)
  /\ (forall payload w,
       let result := fst (validate v payload env w) in
       flag (ValidationResult.isOffline result) = true
       \/ flag (ValidationResult.isGracePeriod result) = true ->
       LicenseAgent.cache (this (snd (validate v payload env w)))
       = LicenseAgent.cache (this w)).
Proof.
  split; [|split; [|split; [|split]]].
  - intros w Hreach. pose proof (reachable_cache_inv v env w Hreach) as Hinv.
    unfold cache_inv in Hinv.
    destruct (LicenseAgent.cache (this w)) as [entry|]; [|exact I].
    split; [exact Hinv|].
    destruct Hinv as (k & req & data & d & _ & _ & ->). now repeat split.
  - intros result w Hclean w'. subst w'.
    rewrite (updateCache_clean result env w Hclean). now repeat split.
  - intros result w Hdeg.
    rewrite (updateCache_degraded result env w); [reflexivity|].
    unfold clean. intros [Hoff Hgrace]. destruct Hdeg; congruence.
  - reflexivity.
  - intros payload w result Hdeg.
    rewrite (validate_degraded_keeps_agent v payload env w); [reflexivity|].
    unfold clean. fold result. intros [Hoff Hgrace]. destruct Hdeg; congruence.
Qed.

(** ** The shape of the results *)

Lemma cachedResult_flags v entry :
  ValidationResult.isOffline (cachedResult v entry)
  = ValidationResult.isOffline (CacheEntry.result entry)
  /\ ValidationResult.isGracePeriod (cachedResult v entry)
     = ValidationResult.isGracePeriod (CacheEntry.result entry).
Proof.
  unfold cachedResult. destruct v; [now split|].
  destruct (_ && _); now split.
Qed.

Lemma validate_result_inv v payload env w :
  cache_inv env w -> result_inv (fst (validate v payload env w)).
Proof.
  intros Hinv. unfold result_inv.
  destruct (fresh_or_remote env w) as [(entry & Hc & Hage)|Hremote].
  - rewrite (validate_fresh v payload env w entry Hc Hage). simpl.
    destruct (cachedResult_flags v entry) as [-> ->].
    unfold cache_inv in Hinv. rewrite Hc in Hinv.
    destruct Hinv as (k & req & data & d & _ & _ & ->). simpl.
    split; discriminate.
  - rewrite (validate_stale v payload env w Hremote).
    destruct (attempt v payload env w) as [data|cause] eqn:Hpost.
    + rewrite (validate_remote_resolved v payload env w _ data Hpost). simpl.
      split; discriminate.
    + rewrite (validate_remote_rejected v payload env w _ cause Hpost). simpl.
      destruct (LicenseAgent.cache (this w)) as [entry|];
        [destruct (_ && _)|]; simpl; (split; [easy|]); intros _;
        eexists _, _; reflexivity.
Qed.

(** C8.  Every result that [validate] or [forceValidate] returns to a caller
    of an agent satisfies: [isGracePeriod = true] implies [isOffline = true],
    and [isOffline = true] implies that [error] is a [NetworkError]. *)
Theorem validate_returns_coherent_results (v : impl) (env : Env) (w : World)
    (payload : option ValidationRequestPayload.t) :
  reachable v env w ->
  forall result,
    result = fst (validate v payload env w)
    \/ result = fst (forceValidate v payload env w) ->
    (ValidationResult.isGracePeriod result = Some true ->
     ValidationResult.isOffline result = Some true)
    /\ (ValidationResult.isOffline result = Some true ->
        exists message cause,
          ValidationResult.error result = Val (NetworkError message cause)
          /\ instanceof_NetworkError (NetworkError message cause) = true).
Proof.
  intros Hreach result Hresult.
  assert (result_inv result) as [Hgrace Hoff].
  { destruct Hresult as [-> | ->].
    - apply validate_result_inv. now apply (reachable_cache_inv v).
    - apply (validate_result_inv v payload env (snd (clearCache env w))). exact I. }
  split; [exact Hgrace|].
  intros H. destruct (Hoff H) as (message & cause & He). now exists message, cause.
Qed.

(** ** The fresh cache *)

(** In src/index.ts a call that finds a fresh entry returns the stored
    result as it is, sends nothing and leaves the agent as it was. *)
Lemma validate_fresh_index_ts (payload : option ValidationRequestPayload.t)
    (env : Env) (w : World) (entry : CacheEntry.t) :
  LicenseAgent.cache (this w) = Some entry ->
  now_at env w - CacheEntry.timestamp entry
    < Config.cacheTTL (LicenseAgent.config (this w)) ->
  fst (validate index_ts payload env w) = CacheEntry.result entry
  /\ posted (snd (validate index_ts payload env w)) = posted w
  /\ this (snd (validate index_ts payload env w)) = this w.
Proof.
  intros Hc Hage. rewrite (validate_fresh index_ts payload env w entry Hc Hage).
  now repeat split.
Qed.

(** In src/index.ts, when a call has been answered by the server and the
    next call reads the clock less than [cacheTTL] after the entry was
    stamped, the two calls send one request and return equal results. *)
Lemma validate_twice_index_ts (payload payload' : option ValidationRequestPayload.t)
    (env : Env) (w : World) (data : ValidationApiResponse.t) :
  attempts_remote env w ->
  attempt index_ts payload env w = Resolved data ->
  clock env (3 + ticks w) - clock env (2 + ticks w)
    < Config.cacheTTL (LicenseAgent.config (this w)) ->
  let first := fst (validate index_ts payload env w) in
  let w1 := snd (validate index_ts payload env w) in
  fst (validate index_ts payload' env w1) = first
  /\ posted (snd (validate index_ts payload' env w1))
     = (posted w ++ [requestData index_ts (LicenseAgent.config (this w)) payload])%list.
Proof.
  intros Hremote Hpost Hwindow first w1. subst first w1.
  rewrite (validate_stale index_ts payload env w Hremote).
  rewrite (validate_remote_resolved index_ts payload env w _ data Hpost).
  cbv zeta. simpl fst. simpl snd.
  match goal with
  | |- context [validate index_ts payload' env ?w1] =>
      destruct (validate_fresh_index_ts payload' env w1 _ eq_refl Hwindow)
        as (-> & -> & _)
  end.
  now split.
Qed.

(** In the second copy of the class a call that finds a fresh entry written
    by [updateCache] returns the stored result with [' (cached)'] appended
    to its reason. *)
Lemma validate_fresh_part_002 (payload : option ValidationRequestPayload.t)
    (env : Env) (w : World) (entry : CacheEntry.t) :
  LicenseAgent.cache (this w) = Some entry ->
  now_at env w - CacheEntry.timestamp entry
    < Config.cacheTTL (LicenseAgent.config (this w)) ->
  clean (CacheEntry.result entry) ->
  ValidationResult.reason (fst (validate part_002 payload env w))
  = Val (plus_str (ValidationResult.reason (CacheEntry.result entry)) " (cached)").
Proof.
  intros Hc Hage [Hoff Hgrace].
  rewrite (validate_fresh part_002 payload env w entry Hc Hage).
  unfold cachedResult. simpl. now rewrite Hoff, Hgrace.
Qed.

(** C1, on the second copy of the class.  A new agent with the configuration
    of the tests validates twice, 30 ms apart, against a server that answers
    [VALID_RESPONSE].  The second call finds the entry of the first one
    fresh and sends nothing, but what it returns is not the stored result:
    its reason is ["valid (cached)"], where the first call returned and the
    cache holds ["valid"]. *)
Theorem validate_cached_part_002_marks_reason :
  let env := Scenario.online Scenario.VALID_RESPONSE 10 in
  let w0 := new_world Scenario.agent in
  let first := fst (validate part_002 None env w0) in
  let w1 := snd (validate part_002 None env w0) in
  let second := fst (validate part_002 None env w1) in
  let w2 := snd (validate part_002 None env w1) in
  LicenseAgent.cache (this w1) = Some (CacheEntry.mk first 20)
  /\ now_at env w1 - 20 < Config.cacheTTL (LicenseAgent.config (this w1))
  /\ length (posted w2) = 1%nat
  /\ ValidationResult.reason first = Val "valid"
  /\ ValidationResult.reason second = Val "valid (cached)"
  /\ second <> first.
Proof.
  cbv zeta. repeat split; try (vm_compute; reflexivity).
  intros Heq. apply (f_equal ValidationResult.reason) in Heq.
  vm_compute in Heq. discriminate Heq.
Qed.

(** ** The theorems at the scenarios of the test suite *)

Lemma run_validate v payload env w :
  snd (run v (Call_validate payload) env w) = snd (validate v payload env w).
Proof.
  simpl. unfold bind, ret. now destruct (validate v payload env w).
Qed.

Lemma reachable_after_validate v env :
  reachable v env (Scenario.after_validate v env).
Proof.
  unfold Scenario.after_validate. rewrite <- run_validate.
  apply reachable_call. now apply (reachable_new v env Scenario.BASE_CONFIG).
Qed.

(** The server answers the first call and is unreachable 1100 ms after the
    cache was written: the second call runs in grace period. *)
Lemma validate_grace_period_witness :
  let env := Scenario.outage Scenario.VALID_RESPONSE 1100 in
  let w := Scenario.after_validate index_ts env in
  let result := fst (validate index_ts None env w) in
  ValidationResult.isValid result = true
  /\ ValidationResult.isGracePeriod result = Some true
  /\ ValidationResult.reason result = Val "grace_period"
  /\ ValidationResult.status result = Val "active".
Proof.
  intros env w result.
  assert (LicenseAgent.cache (this w) = Some (Scenario.first_entry 1100)) as Hc
    by (vm_compute; reflexivity).
  assert (attempts_remote env w) as Hr by (vm_compute; discriminate).
  assert (attempt index_ts None env w = Rejected (Error "Connection refused")) as Hp
    by (vm_compute; reflexivity).
  assert (ValidationResult.isValid (CacheEntry.result (Scenario.first_entry 1100)) = true)
    as Hv by reflexivity.
  assert (now_at env w - CacheEntry.timestamp (Scenario.first_entry 1100)
          < Config.gracePeriod (LicenseAgent.config (this w))) as Hg
    by (vm_compute; reflexivity).
  destruct (validate_grace_period index_ts None env w _ _ Hc Hr Hp Hv Hg)
    as (H1 & _ & H3 & H4 & _ & H6 & _).
  split_and!; [exact H1|exact H3|exact H4|].
  fold result in H6. rewrite H6. reflexivity.
Defined.

(** The same outage, 6000 ms after the cache was written: the grace period
    of 5000 ms is over. *)
Lemma validate_expired_grace_witness :
  let env := Scenario.outage Scenario.VALID_RESPONSE 6000 in
  let w := Scenario.after_validate part_002 env in
  let result := fst (validate part_002 None env w) in
  ValidationResult.isValid result = false
  /\ ValidationResult.isGracePeriod result = Some false
  /\ ValidationResult.reason result = Val "valid".
Proof.
  intros env w result.
  assert (LicenseAgent.cache (this w) = Some (Scenario.first_entry 6000)) as Hc
    by (vm_compute; reflexivity).
  assert (attempts_remote env w) as Hr by (vm_compute; discriminate).
  assert (attempt part_002 None env w = Rejected (Error "Connection refused")) as Hp
    by (vm_compute; reflexivity).
  assert (ValidationResult.isValid (CacheEntry.result (Scenario.first_entry 6000)) = false
          \/ Config.gracePeriod (LicenseAgent.config (this w))
             <= now_at env w - CacheEntry.timestamp (Scenario.first_entry 6000)) as Hw
    by (right; vm_compute; discriminate).
  destruct (validate_expired_grace part_002 None env w _ _ Hc Hr Hp Hw)
    as (H1 & _ & H3 & H4 & _).
  split_and!; [exact H1|exact H3|].
  apply H4; [reflexivity|discriminate].
Defined.

(** A new agent whose server is unreachable. *)
Lemma validate_no_cache_offline_witness :
  let env := Scenario.offline 10 in
  let w := new_world Scenario.agent in
  let result := fst (validate index_ts None env w) in
  ValidationResult.isValid result = false
  /\ ValidationResult.reason result = Val "network_error_no_cache"
  /\ ValidationResult.lastCheckedAt result = Undefined.
Proof.
  intros env w result.
  assert (LicenseAgent.cache (this w) = None) as Hc by reflexivity.
  assert (attempt index_ts None env w = Rejected (Error "Network Failure")) as Hp
    by reflexivity.
  destruct (validate_no_cache_offline index_ts None env w _ Hc Hp)
    as (H1 & _ & H3 & _ & H5).
  split_and!; [exact H1|exact H3|exact H5].
Defined.

(** A new agent whose server answers [VALID_RESPONSE]. *)
Lemma validate_online_success_witness :
  let env := Scenario.online Scenario.VALID_RESPONSE 10 in
  let w := new_world Scenario.agent in
  let result := fst (validate index_ts None env w) in
  ValidationResult.isValid result = true
  /\ ValidationResult.expiresAt result = Val (mkDate (Some 1893456000000))
  /\ ValidationResult.lastCheckedAt result = Val (mkDate (Some 10))
  /\ LicenseAgent.cache (this (snd (validate index_ts None env w)))
     = Some (CacheEntry.mk result 20).
Proof.
  intros env w result.
  assert (attempts_remote env w) as Hr by exact I.
  assert (attempt index_ts None env w = Resolved Scenario.VALID_RESPONSE) as Hp
    by reflexivity.
  destruct (validate_online_success index_ts None env w _ Hr Hp)
    as (H1 & _ & _ & _ & H5 & _ & H7 & _ & _ & _ & H11).
  split_and!; [exact H1| |exact H7|exact H11].
  apply (H5 "2030-01-01T00:00:00.000Z"); [reflexivity|discriminate].
Defined.

(** The metadata test: [userId] is in both records, the one of the call is
    sent. *)
Lemma validate_request_metadata_witness :
  let env := Scenario.online Scenario.VALID_RESPONSE 10 in
  let w := new_world Scenario.agentWithMeta in
  let payload := Some (ValidationRequestPayload.mk (Val Scenario.dynamicMeta)) in
  exists req m,
    posted (snd (validate part_002 payload env w)) = [req]
    /\ ApiValidateRequest.license_key req = "prod_testprefix_testsecret"
    /\ ApiValidateRequest.metadata req = Some m
    /\ m !! "userId" = Some (JStr "user123")
    /\ m !! "deviceType" = Some (JStr "server").
Proof.
  intros env w payload.
  assert (attempts_remote env w) as Hr by exact I.
  destruct (validate_request_metadata part_002 payload env w Hr)
    as (req & Hposted & _ & Hkey & _ & Hmerge).
  destruct Hmerge as (m & Hm & Hlook).
  { exists "userId". right. exists (JStr "user123"). vm_compute. reflexivity. }
  exists req, m. split_and!; [exact Hposted|exact Hkey|exact Hm| |].
  - rewrite (Hlook "userId"). vm_compute. reflexivity.
  - rewrite (Hlook "deviceType"). vm_compute. reflexivity.
Defined.

(** [forceValidate] during the outage, with a valid entry 1100 ms old in the
    cache: no grace period. *)
Lemma forceValidate_clears_first_witness :
  let env := Scenario.outage Scenario.VALID_RESPONSE 1100 in
  let w := Scenario.after_validate index_ts env in
  let result := fst (forceValidate index_ts None env w) in
  LicenseAgent.cache (this w) = Some (Scenario.first_entry 1100)
  /\ ValidationResult.isValid result = false
  /\ ValidationResult.isGracePeriod result = None
  /\ ValidationResult.reason result = Val "network_error_no_cache".
Proof.
  intros env w result.
  assert (attempt index_ts None env w = Rejected (Error "Connection refused")) as Hp
    by (vm_compute; reflexivity).
  destruct (forceValidate_clears_first index_ts None env w) as (_ & _ & Hfail).
  destruct (Hfail _ Hp) as (H1 & _ & H3 & H4 & _).
  split_and!; [vm_compute; reflexivity|exact H1|exact H3|exact H4].
Defined.

(** [checkOrThrow] on a new agent whose server answers "revoked". *)
Lemma checkOrThrow_policy_witness :
  let env := Scenario.online Scenario.INVALID_RESPONSE_REVOKED 10 in
  let w := new_world Scenario.agent in
  fst (checkOrThrow index_ts None env w)
  = Throw (ValidationError "revoked" (Val "revoked") (Val "revoked") Null JUndefined).
Proof.
  intros env w.
  destruct (checkOrThrow_policy index_ts None env w) as (_ & _ & _ & Hthrow).
  destruct Hthrow as (message & -> & Hmsg & _).
  - reflexivity.
  - discriminate.
  - intros e He. discriminate He.
  - rewrite (Hmsg "revoked"); [reflexivity|reflexivity|discriminate].
Defined.

(** The cache after the first call of the tests. *)
Lemma cache_holds_only_online_results_witness :
  let env := Scenario.online Scenario.VALID_RESPONSE 10 in
  let w := Scenario.after_validate index_ts env in
  exists entry,
    LicenseAgent.cache (this w) = Some entry
    /\ ValidationResult.isOffline (CacheEntry.result entry) = None
    /\ ValidationResult.isGracePeriod (CacheEntry.result entry) = None.
Proof.
  intros env w.
  destruct (cache_holds_only_online_results index_ts env) as (Hreach & _).
  specialize (Hreach w (reachable_after_validate index_ts env)).
  assert (LicenseAgent.cache (this w) = Some (Scenario.first_entry 10)) as Hc
    by (vm_compute; reflexivity).
  rewrite Hc in Hreach. destruct Hreach as (_ & Hoff & Hgrace & _).
  exists (Scenario.first_entry 10). split_and!; [exact Hc|exact Hoff|exact Hgrace].
Defined.

(** The result of the second call of the grace-period test. *)
Lemma validate_returns_coherent_results_witness :
  let env := Scenario.outage Scenario.VALID_RESPONSE 1100 in
  let w := Scenario.after_validate index_ts env in
  exists message cause,
    ValidationResult.error (fst (validate index_ts None env w))
    = Val (NetworkError message cause).
Proof.
  intros env w.
  destruct (validate_returns_coherent_results index_ts env w None
              (reachable_after_validate index_ts env)
              (fst (validate index_ts None env w)) (or_introl eq_refl))
    as (_ & Hoff).
  destruct Hoff as (message & cause & He & _).
  - vm_compute. reflexivity.
  - exists message, cause. exact He.
Defined.


(** * More of the class: the constructor, the request log, the clock *)

(** ** Helper lemmas *)

(** What a call whose request fails does to the world. *)
Lemma validate_rejected_world v payload env w cause :
  attempts_remote env w ->
  attempt v payload env w = Rejected cause ->
  snd (validate v payload env w)
  = mkWorld (this w) (S (ticks w))
      (posted w ++ [requestData v (LicenseAgent.config (this w)) payload]).
Proof.
  intros Hremote Hpost.
  rewrite (validate_stale v payload env w Hremote).
  now rewrite (validate_remote_rejected v payload env w _ cause Hpost).
Qed.

(** The two shapes of a result: answered by the server now or earlier, or
    built by the [catch] block. *)
Lemma validate_result_shape v payload env w :
  cache_inv env w ->
  let result := fst (validate v payload env w) in
  (ValidationResult.isOffline result = None
   /\ ValidationResult.isGracePeriod result = None
   /\ ValidationResult.error result = Undefined)
  \/ (exists cause,
        attempts_remote env w
        /\ attempt v payload env w = Rejected cause
        /\ ValidationResult.isOffline result = Some true
        /\ ValidationResult.error result = Val (networkError cause)
        /\ (ValidationResult.isGracePeriod result = Some true <->
            ValidationResult.isValid result = true)
        /\ (ValidationResult.isGracePeriod result = Some true <->
            exists entry,
              LicenseAgent.cache (this w) = Some entry
              /\ in_grace (LicenseAgent.config (this w)) (now_at env w) entry)).
Proof.
  intros Hinv result. subst result.
  destruct (fresh_or_remote env w) as [(entry & Hc & Hage)|Hremote].
  - left. rewrite (validate_fresh v payload env w entry Hc Hage). simpl.
    unfold cache_inv in Hinv. rewrite Hc in Hinv.
    destruct Hinv as (k & req & data & d & _ & _ & Hres).
    unfold cachedResult. rewrite Hres. destruct v; simpl; now split_and!.
  - rewrite (validate_stale v payload env w Hremote).
    destruct (attempt v payload env w) as [data|cause] eqn:Hpost.
    + left. rewrite (validate_remote_resolved v payload env w _ data Hpost).
      simpl. now split_and!.
    + right. exists cause.
      rewrite (validate_remote_rejected v payload env w _ cause Hpost).
      unfold in_grace.
      destruct (LicenseAgent.cache (this w)) as [entry|]; simpl.
      * destruct (ValidationResult.isValid (CacheEntry.result entry)) eqn:Hvalid;
          simpl.
        -- destruct (Z.ltb_spec (now_at env w - CacheEntry.timestamp entry)
                       (Config.gracePeriod (LicenseAgent.config (this w))))
             as [Hlt|Hge]; simpl; split_and!; try easy.
           ++ split; [|easy]. intros _. exists entry. now split_and!.
           ++ split; [easy|]. intros (e & [= <-] & _ & Hlt). lia.
        -- split_and!; try easy. split; [easy|].
           intros (e & [= <-] & Hv & _). congruence.
      * split_and!; try easy. split; [easy|]. now intros (e & He & _).
Qed.

(** What any call of [validate] keeps. *)
Lemma validate_frame v payload env w :
  let w' := snd (validate v payload env w) in
  LicenseAgent.config (this w') = LicenseAgent.config (this w)
  /\ (exists sent, posted w' = (posted w ++ sent)%list /\ (length sent <= 1)%nat)
  /\ (ticks w < ticks w')%nat.
Proof.
  cbv zeta.
  destruct (fresh_or_remote env w) as [(entry & Hc & Hage)|Hremote].
  - rewrite (validate_fresh v payload env w entry Hc Hage). simpl.
    split_and!; [reflexivity| |lia].
    exists []. rewrite app_nil_r. split; [reflexivity|simpl; lia].
  - rewrite (validate_stale v payload env w Hremote).
    destruct (attempt v payload env w) as [data|cause] eqn:Hpost.
    + rewrite (validate_remote_resolved v payload env w _ data Hpost). simpl.
      split_and!; [reflexivity| |lia]. eexists [_]. split; [reflexivity|simpl; lia].
    + rewrite (validate_remote_rejected v payload env w _ cause Hpost). simpl.
      split_and!; [reflexivity| |lia]. eexists [_]. split; [reflexivity|simpl; lia].
Qed.

Lemma stamped_before_later env w w' entry :
  (ticks w <= ticks w')%nat ->
  stamped_before env w entry -> stamped_before env w' entry.
Proof.
  intros Hle (k & Hk & Hts & Hdate). exists k. split_and!; [lia|easy|easy].
Qed.

Lemma validate_cache_stamped v payload env w :
  cache_stamped env w -> cache_stamped env (snd (validate v payload env w)).
Proof.
  intros Hinv.
  destruct (fresh_or_remote env w) as [(entry & Hc & Hage)|Hremote].
  - rewrite (validate_fresh v payload env w entry Hc Hage).
    unfold cache_stamped in *. simpl.
    destruct (LicenseAgent.cache (this w)) as [e|]; [|exact I].
    apply (stamped_before_later env w); [simpl; lia|exact Hinv].
  - rewrite (validate_stale v payload env w Hremote).
    destruct (attempt v payload env w) as [data|cause] eqn:Hpost.
    + rewrite (validate_remote_resolved v payload env w _ data Hpost).
      unfold cache_stamped. simpl.
      exists (S (ticks w)). simpl. split_and!; [lia|reflexivity|reflexivity].
    + rewrite (validate_remote_rejected v payload env w _ cause Hpost).
      unfold cache_stamped in *. simpl.
      destruct (LicenseAgent.cache (this w)) as [e|]; [|exact I].
      apply (stamped_before_later env w); [simpl; lia|exact Hinv].
Qed.

Lemma run_cache_stamped v c env w :
  cache_stamped env w -> cache_stamped env (snd (run v c env w)).
Proof.
  intros Hinv. destruct c as [payload|payload|payload|]; simpl.
  - unfold bind, ret.
    pose proof (validate_cache_stamped v payload env w Hinv) as H.
    now destruct (validate v payload env w).
  - unfold forceValidate, bind, ret, clearCache, set_this_cache.
    match goal with
    | |- context [validate v payload env ?w0] =>
        pose proof (validate_cache_stamped v payload env w0 I) as H;
        now destruct (validate v payload env w0)
    end.
  - unfold checkOrThrow, bind, ret.
    pose proof (validate_cache_stamped v payload env w Hinv) as H.
    now destruct (validate v payload env w).
  - exact I.
Qed.

Lemma reachable_cache_stamped v env w : reachable v env w -> cache_stamped env w.
Proof.
  induction 1 as [config agent Hnew|w c _ IH].
  - unfold LicenseAgent_new in Hnew.
    destruct (_ || _); [discriminate|].
    injection Hnew as <-. exact I.
  - now apply run_cache_stamped.
Qed.

(** With a clock that never runs backwards no entry is younger than zero. *)
Lemma stamped_age_nonneg env w entry :
  monotone_clock env ->
  stamped_before env w entry ->
  0 <= now_at env w - CacheEntry.timestamp entry.
Proof.
  intros Hmono (k & Hk & -> & _). unfold now_at.
  specialize (Hmono (S k) (ticks w)). lia.
Qed.

Lemma checkOrThrow_fst v payload env w :
  fst (checkOrThrow v payload env w) = check (fst (validate v payload env w)).
Proof.
  unfold checkOrThrow, bind, ret. now destruct (validate v payload env w).
Qed.

Lemma checkOrThrow_snd v payload env w :
  snd (checkOrThrow v payload env w) = snd (validate v payload env w).
Proof.
  unfold checkOrThrow, bind, ret. now destruct (validate v payload env w).
Qed.

Lemma run_forceValidate v payload env w :
  snd (run v (Call_forceValidate payload) env w)
  = snd (validate v payload env (snd (clearCache env w))).
Proof.
  simpl. unfold forceValidate, bind, ret, clearCache, set_this_cache. simpl.
  match goal with |- context [validate v payload env ?w0] =>
    now destruct (validate v payload env w0) end.
Qed.

Lemma run_checkOrThrow v payload env w :
  snd (run v (Call_checkOrThrow payload) env w) = snd (validate v payload env w).
Proof.
  simpl. unfold checkOrThrow, bind, ret. now destruct (validate v payload env w).
Qed.

(** ** The constructor *)

(** X1.  [new LicenseAgent(config)] succeeds exactly when [serverUrl],
    [apiKey] and [productName] are all non-empty, and throws the
    [InvalidConfigError] exactly when one of them is empty; [licenseKey] is
    not looked at. *)
Theorem constructor_checks_required_fields (config : LicenseAgentConfig.t) :
  (LicenseAgentConfig.serverUrl config <> ""
   /\ LicenseAgentConfig.apiKey config <> ""
   /\ LicenseAgentConfig.productName config <> ""
   <-> exists agent, LicenseAgent_new config = Normal agent)
  /\ (LicenseAgentConfig.serverUrl config = ""
      \/ LicenseAgentConfig.apiKey config = ""
      \/ LicenseAgentConfig.productName config = ""
      <-> LicenseAgent_new config
          = Throw (InvalidConfigError "serverUrl, apiKey, and productName are required")).
Proof.
  unfold LicenseAgent_new.
  destruct (String.eqb_spec (LicenseAgentConfig.serverUrl config) "") as [Hs|Hs];
    destruct (String.eqb_spec (LicenseAgentConfig.apiKey config) "") as [Ha|Ha];
    destruct (String.eqb_spec (LicenseAgentConfig.productName config) "") as [Hp|Hp];
    simpl; (split; split);
    try (intros (? & ? & ?); congruence);
    try (intros (? & ?); discriminate);
    try (intros [?|[?|?]]; congruence);
    try discriminate; try tauto; try (intros _; eexists; reflexivity).
Qed.

(** X2.  The agent that the constructor returns has an empty cache, the
    given [cacheTTL], [gracePeriod] and [requestTimeout] or else 3600000,
    86400000 and 10000 ms, and otherwise the properties of the argument; its
    first [validate] goes to the server whatever the clock reads. *)
Theorem constructor_applies_defaults (config : LicenseAgentConfig.t)
    (agent : LicenseAgent.t) :
  LicenseAgent_new config = Normal agent ->
  LicenseAgent.cache agent = None
  /\ Config.cacheTTL (LicenseAgent.config agent)
     = match LicenseAgentConfig.cacheTTL config with Some t => t | None => 3600000 end
  /\ Config.gracePeriod (LicenseAgent.config agent)
     = match LicenseAgentConfig.gracePeriod config with Some t => t | None => 86400000 end
  /\ Config.requestTimeout (LicenseAgent.config agent)
     = match LicenseAgentConfig.requestTimeout config with Some t => t | None => 10000 end
  /\ Config.productName (LicenseAgent.config agent) = LicenseAgentConfig.productName config
  /\ Config.apiKey (LicenseAgent.config agent) = LicenseAgentConfig.apiKey config
  /\ Config.licenseKey (LicenseAgent.config agent) = LicenseAgentConfig.licenseKey config
  /\ Config.staticMetadata (LicenseAgent.config agent)
     = LicenseAgentConfig.staticMetadata config
  /\ forall v payload env,
       posted (snd (validate v payload env (new_world agent)))
       = [requestData v (LicenseAgent.config agent) payload].
Proof.
  unfold LicenseAgent_new. destruct (_ || _); [discriminate|].
  intros [= <-]. simpl.
  split_and!; try reflexivity.
  intros v payload env.
  match goal with |- context [validate v payload env ?w0] =>
      assert (attempts_remote env w0) as Hremote by exact I;
      rewrite (validate_stale v payload env w0 Hremote);
      destruct (attempt v payload env w0) as [data|cause] eqn:Hpost;
      [ now rewrite (validate_remote_resolved v payload env w0 _ data Hpost)
      | now rewrite (validate_remote_rejected v payload env w0 _ cause Hpost) ]
    end.
Qed.

(** ** Reading a fresh entry *)

(** X3.  In both copies of the class a call that finds a fresh entry changes
    nothing in the agent and sends nothing, and the payload plays no part:
    a second call, with any payload, made while the entry is still fresh
    returns the same result. *)
Theorem validate_fresh_is_read_only (v : impl)
    (payload payload' : option ValidationRequestPayload.t)
    (env : Env) (w : World) (entry : CacheEntry.t) :
  LicenseAgent.cache (this w) = Some entry ->
  clock env (ticks w) - CacheEntry.timestamp entry
    < Config.cacheTTL (LicenseAgent.config (this w)) ->
  clock env (S (ticks w)) - CacheEntry.timestamp entry
    < Config.cacheTTL (LicenseAgent.config (this w)) ->
  let w1 := snd (validate v payload env w) in
  this w1 = this w
  /\ posted w1 = posted w
  /\ fst (validate v payload' env w1) = fst (validate v payload env w)
  /\ posted (snd (validate v payload' env w1)) = posted w.
Proof.
  intros Hc Hage Hage' w1. subst w1.
  rewrite (validate_fresh v payload env w entry Hc Hage). simpl.
  rewrite (validate_fresh v payload' env (tick w) entry Hc Hage').
  now split_and!.
Qed.

(** ** [checkOrThrow] on an agent *)

(** X4.  For an agent built by the constructor a result with
    [isGracePeriod = true] always has [isValid = true]; so [checkOrThrow]
    returns normally exactly when the result of [validate] is valid, and its
    test of [isGracePeriod] is never the one that decides. *)
Theorem checkOrThrow_returns_iff_valid (v : impl) (env : Env) (w : World)
    (payload : option ValidationRequestPayload.t) :
  reachable v env w ->
  let result := fst (validate v payload env w) in
  (ValidationResult.isGracePeriod result = Some true ->
   ValidationResult.isValid result = true)
  /\ (fst (checkOrThrow v payload env w) = Normal tt <->
      ValidationResult.isValid result = true).
Proof.
  intros Hreach result.
  assert (ValidationResult.isGracePeriod result = Some true ->
          ValidationResult.isValid result = true) as Hgrace.
  { destruct (validate_result_shape v payload env w (reachable_cache_inv v env w Hreach))
      as [(_ & Hg & _)|(cause & _ & _ & _ & _ & Hg & _)]; fold result in Hg.
    - rewrite Hg. discriminate.
    - apply Hg. }
  split; [exact Hgrace|].
  rewrite checkOrThrow_fst. fold result. unfold check.
  destruct (ValidationResult.isValid result); simpl; [easy|].
  destruct (ValidationResult.isGracePeriod result) as [[|]|]; simpl.
  - specialize (Hgrace eq_refl). discriminate.
  - split; [|discriminate].
    destruct (ValidationResult.error result) as [| |e];
      try destruct (instanceof_NetworkError e); discriminate.
  - split; [|discriminate].
    destruct (ValidationResult.error result) as [| |e];
      try destruct (instanceof_NetworkError e); discriminate.
Qed.

(** X5.  What [checkOrThrow] throws on an agent built by the constructor:
    the result is invalid, and either the request of this call failed and the
    error is the [NetworkError] that wraps the cause, or the result is not
    offline and the error is a [ValidationError] with the fields of the
    result.  Nothing else is thrown. *)
Theorem checkOrThrow_error_kinds (v : impl) (env : Env) (w : World)
    (payload : option ValidationRequestPayload.t) (e : JsError) :
  reachable v env w ->
  fst (checkOrThrow v payload env w) = Throw e ->
  let result := fst (validate v payload env w) in
  ValidationResult.isValid result = false
  /\ ((exists cause,
         attempt v payload env w = Rejected cause
         /\ ValidationResult.isOffline result = Some true
         /\ e = NetworkError "Failed to connect to license server" (Some cause))
      \/ (ValidationResult.isOffline result = None
          /\ e = ValidationError
                   (or_else (ValidationResult.reason result) "License validation failed")
                   (ValidationResult.reason result) (ValidationResult.status result)
                   (ValidationResult.expiresAt result)
                   (ValidationResult.allowedData result))).
Proof.
  intros Hreach Hthrow result. rewrite checkOrThrow_fst in Hthrow.
  fold result in Hthrow. unfold check in Hthrow.
  destruct (ValidationResult.isValid result) eqn:Hvalid; simpl in Hthrow;
    [discriminate|].
  split; [reflexivity|].
  destruct (validate_result_shape v payload env w (reachable_cache_inv v env w Hreach))
    as [(Hoff & Hg & Herr)|(cause & _ & Hpost & Hoff & Herr & _ & _)];
    fold result in Hoff, Herr.
  - fold result in Hg. rewrite Hg, Herr in Hthrow. simpl in Hthrow.
    right. split; [exact Hoff|]. now injection Hthrow as <-.
  - left. exists cause. split_and!; [exact Hpost|exact Hoff|].
    rewrite Herr in Hthrow.
    destruct (flag (ValidationResult.isGracePeriod result)); [discriminate|].
    simpl in Hthrow. now injection Hthrow as <-.
Qed.

(** X6.  [checkOrThrow] when the request fails: it returns normally when
    the cache holds a valid result younger than [gracePeriod]; otherwise it
    throws the [NetworkError] that wraps the cause, also when the cached
    verdict was an invalid license. *)
Theorem checkOrThrow_on_failed_request (v : impl)
    (payload : option ValidationRequestPayload.t) (env : Env) (w : World)
    (cause : JsError) :
  attempts_remote env w ->
  attempt v payload env w = Rejected cause ->
  let config := LicenseAgent.config (this w) in
  let outcome := fst (checkOrThrow v payload env w) in
  (forall entry,
     LicenseAgent.cache (this w) = Some entry ->
     ValidationResult.isValid (CacheEntry.result entry) = true ->
     now_at env w - CacheEntry.timestamp entry < Config.gracePeriod config ->
     outcome = Normal tt)
  /\ (forall entry,
       LicenseAgent.cache (this w) = Some entry ->
       ValidationResult.isValid (CacheEntry.result entry) = false
       \/ Config.gracePeriod config <= now_at env w - CacheEntry.timestamp entry ->
       outcome = Throw (NetworkError "Failed to connect to license server" (Some cause)))
  /\ (LicenseAgent.cache (this w) = None ->
      outcome = Throw (NetworkError "Failed to connect to license server" (Some cause))).
Proof.
  intros Hremote Hpost config outcome. subst outcome config.
  rewrite checkOrThrow_fst, (validate_stale v payload env w Hremote),
    (validate_remote_rejected v payload env w _ cause Hpost). simpl.
  split_and!.
  - intros entry -> -> Hage. apply Z.ltb_lt in Hage. now rewrite Hage.
  - intros entry -> [-> | Hage]; [reflexivity|].
    apply Z.ltb_ge in Hage. rewrite Hage, andb_false_r. reflexivity.
  - now intros ->.
Qed.

(** ** The grace period and the clock *)

(** X7.  When [gracePeriod] is not larger than [cacheTTL], no result of
    [validate] on an agent built by the constructor is a grace-period
    result: an entry young enough for the grace period is still fresh and
    is answered from the cache. *)
Theorem no_grace_when_grace_within_ttl (v : impl) (env : Env) (w : World)
    (payload : option ValidationRequestPayload.t) :
  reachable v env w ->
  Config.gracePeriod (LicenseAgent.config (this w))
    <= Config.cacheTTL (LicenseAgent.config (this w)) ->
  ValidationResult.isGracePeriod (fst (validate v payload env w)) <> Some true.
Proof.
  intros Hreach Hle.
  destruct (validate_result_shape v payload env w (reachable_cache_inv v env w Hreach))
    as [(_ & Hg & _)|(cause & Hremote & _ & _ & _ & _ & Hg)].
  - rewrite Hg. discriminate.
  - intros Hgrace. apply Hg in Hgrace. destruct Hgrace as (entry & Hc & _ & Hage).
    unfold attempts_remote in Hremote. rewrite Hc in Hremote. lia.
Qed.

(** X8.  The entry in the cache of an agent built by the constructor was
    stamped with a reading of the clock made before the current call, and
    the [lastCheckedAt] of its result is the reading just before that one.
    When the clock never runs backwards, [lastCheckedAt] is not after the
    stamp and the age that the next call computes is not negative. *)
Theorem cache_entry_is_stamped_by_clock (v : impl) (env : Env) (w : World)
    (entry : CacheEntry.t) :
  reachable v env w ->
  LicenseAgent.cache (this w) = Some entry ->
  exists k : nat,
    (S k < ticks w)%nat
    /\ CacheEntry.timestamp entry = clock env (S k)
    /\ ValidationResult.lastCheckedAt (CacheEntry.result entry)
       = Val (mkDate (Some (clock env k)))
    /\ (monotone_clock env ->
        clock env k <= CacheEntry.timestamp entry
        /\ 0 <= now_at env w - CacheEntry.timestamp entry).
Proof.
  intros Hreach Hc.
  pose proof (reachable_cache_stamped v env w Hreach) as Hinv.
  unfold cache_stamped in Hinv. rewrite Hc in Hinv.
  destruct Hinv as (k & Hk & Hts & Hdate).
  exists k. split_and!; [exact Hk|exact Hts|exact Hdate|].
  intros Hmono. rewrite Hts. unfold now_at.
  pose proof (Hmono k (S k)). pose proof (Hmono (S k) (ticks w)). lia.
Qed.

(** X9.  With [cacheTTL] zero or negative and a clock that never runs
    backwards the cache is never fresh: every [validate] on an agent built
    by the constructor sends a request. *)
Theorem nonpositive_ttl_disables_cache (v : impl) (env : Env) (w : World)
    (payload : option ValidationRequestPayload.t) :
  reachable v env w ->
  monotone_clock env ->
  Config.cacheTTL (LicenseAgent.config (this w)) <= 0 ->
  posted (snd (validate v payload env w))
  = (posted w ++ [requestData v (LicenseAgent.config (this w)) payload])%list.
Proof.
  intros Hreach Hmono Httl.
  assert (attempts_remote env w) as Hremote.
  { pose proof (reachable_cache_stamped v env w Hreach) as Hinv.
    unfold cache_stamped in Hinv. unfold attempts_remote.
    destruct (LicenseAgent.cache (this w)) as [entry|]; [|exact I].
    pose proof (stamped_age_nonneg env w entry Hmono Hinv). lia. }
  rewrite (validate_stale v payload env w Hremote).
  destruct (attempt v payload env w) as [data|cause] eqn:Hpost.
  - now rewrite (validate_remote_resolved v payload env w _ data Hpost).
  - now rewrite (validate_remote_rejected v payload env w _ cause Hpost).
Qed.

(** X10.  A call whose request fails leaves the agent as it was, so an
    answer from the [catch] block does not renew the grace period: while
    the clock does not run backwards, the next call goes to the server
    again, and if its request fails too and the first answer was not a
    grace-period answer, neither is the second. *)
Theorem grace_period_is_not_renewed (v : impl)
    (payload payload' : option ValidationRequestPayload.t)
    (env : Env) (w : World) (cause cause' : JsError) :
  clock env (ticks w) <= clock env (S (ticks w)) ->
  attempts_remote env w ->
  attempt v payload env w = Rejected cause ->
  let w1 := snd (validate v payload env w) in
  attempt v payload' env w1 = Rejected cause' ->
  this w1 = this w
  /\ attempts_remote env w1
  /\ (ValidationResult.isGracePeriod (fst (validate v payload env w)) <> Some true ->
      ValidationResult.isGracePeriod (fst (validate v payload' env w1)) <> Some true).
Proof.
  intros Hclock Hremote Hpost w1. subst w1.
  rewrite (validate_rejected_world v payload env w cause Hremote Hpost).
  set (w1 := mkWorld _ _ _). intros Hpost'.
  assert (attempts_remote env w1) as Hremote1.
  { unfold attempts_remote in *. simpl.
    destruct (LicenseAgent.cache (this w)) as [entry|]; [|exact I].
    unfold now_at in *. simpl. lia. }
  split_and!; [reflexivity|exact Hremote1|].
  rewrite (validate_stale v payload env w Hremote),
    (validate_remote_rejected v payload env w _ cause Hpost).
  rewrite (validate_stale v payload' env w1 Hremote1).
  change (tick w1) with (tick (mkWorld (this w1) (ticks w1) (posted w1))).
  rewrite (validate_remote_rejected v payload' env w1 _ cause' Hpost').
  simpl.
  destruct (LicenseAgent.cache (this w)) as [entry|]; [|easy].
  destruct (ValidationResult.isValid (CacheEntry.result entry)); simpl; [|easy].
  unfold now_at; simpl.
  destruct (Z.ltb_spec (clock env (ticks w) - CacheEntry.timestamp entry)
              (Config.gracePeriod (LicenseAgent.config (this w)))) as [Hlt|Hge];
    simpl; [easy|].
  intros _.
  destruct (Z.ltb_spec (clock env (S (ticks w)) - CacheEntry.timestamp entry)
              (Config.gracePeriod (LicenseAgent.config (this w)))) as [Hlt'|Hge'];
    simpl; [lia|easy].
Qed.

(** X13.  A [forceValidate] whose request fails leaves the cache empty: the
    entry that was there is lost, and a later [validate] whose request fails
    gets the no-cache answer and no grace period. *)
Theorem forceValidate_failure_drops_cache (v : impl)
    (payload payload' : option ValidationRequestPayload.t)
    (env : Env) (w : World) (cause cause' : JsError) :
  attempt v payload env w = Rejected cause ->
  let w1 := snd (forceValidate v payload env w) in
  attempt v payload' env w1 = Rejected cause' ->
  LicenseAgent.cache (this w1) = None
  /\ ValidationResult.reason (fst (validate v payload' env w1))
     = Val "network_error_no_cache"
  /\ ValidationResult.isGracePeriod (fst (validate v payload' env w1)) = None
  /\ ValidationResult.isValid (fst (validate v payload' env w1)) = false.
Proof.
  intros Hpost w1.
  assert (w1 = snd (validate v payload env (snd (clearCache env w)))) as Hw1
    by reflexivity.
  assert (attempts_remote env (snd (clearCache env w))) as Hremote by exact I.
  rewrite <- attempt_clearCache in Hpost.
  rewrite (validate_rejected_world v payload env _ cause Hremote Hpost) in Hw1.
  rewrite Hw1. set (w2 := mkWorld _ _ _). intros Hpost'.
  assert (attempts_remote env w2) as Hremote2 by exact I.
  rewrite (validate_stale v payload' env w2 Hremote2).
  change (tick w2) with (tick (mkWorld (this w2) (ticks w2) (posted w2))).
  rewrite (validate_remote_rejected v payload' env w2 _ cause' Hpost').
  now split_and!.
Qed.

(** ** The request and the log *)

(** X11.  A payload without [metadata], or with [metadata: null], gives the
    same request as no payload: it carries the static metadata of the
    configuration, and no [metadata] property when there is none or it has
    no key.  Without static metadata the request carries the metadata of
    the call. *)
Theorem requestData_without_dynamic_metadata (v : impl) (config : Config.t) :
  requestData v config (Some (ValidationRequestPayload.mk Undefined))
  = requestData v config None
  /\ requestData v config (Some (ValidationRequestPayload.mk Null))
     = requestData v config None
  /\ (forall m, Config.staticMetadata config = Some m -> m <> ∅ ->
       ApiValidateRequest.metadata (requestData v config None) = Some m)
  /\ (Config.staticMetadata config = None \/ Config.staticMetadata config = Some ∅ ->
      ApiValidateRequest.metadata (requestData v config None) = None)
  /\ (forall m, Config.staticMetadata config = None -> m <> ∅ ->
       ApiValidateRequest.metadata
         (requestData v config (Some (ValidationRequestPayload.mk (Val m))))
       = Some m).
Proof.
  split_and!; try reflexivity.
  - intros m Hm Hne. unfold requestData, merged_metadata. rewrite Hm. simpl.
    rewrite (left_id_L ∅ (∪)).
    destruct (Nat.eqb_spec (size m) 0) as [Hsize|Hsize]; [|reflexivity].
    now apply map_size_empty_iff in Hsize.
  - intros [Hm|Hm]; unfold requestData, merged_metadata; rewrite Hm; simpl;
      rewrite (left_id_L ∅ (∪)); now rewrite map_size_empty.
  - intros m Hm Hne. unfold requestData, merged_metadata. rewrite Hm. simpl.
    rewrite (right_id_L ∅ (∪)).
    destruct (Nat.eqb_spec (size m) 0) as [Hsize|Hsize]; [|reflexivity].
    now apply map_size_empty_iff in Hsize.
Qed.

(** X12.  No public method changes the configuration of the agent; each
    call sends at most one request and only appends it to the log. *)
Theorem calls_keep_config_and_history (v : impl) (c : call) (env : Env) (w : World) :
  let w' := snd (run v c env w) in
  LicenseAgent.config (this w') = LicenseAgent.config (this w)
  /\ (exists sent, posted w' = (posted w ++ sent)%list /\ (length sent <= 1)%nat)
  /\ (ticks w <= ticks w')%nat.
Proof.
  cbv zeta. destruct c as [payload|payload|payload|].
  - rewrite run_validate.
    destruct (validate_frame v payload env w) as (Hcfg & Hsent & Hticks).
    split_and!; [exact Hcfg|exact Hsent|lia].
  - rewrite run_forceValidate.
    destruct (validate_frame v payload env (snd (clearCache env w)))
      as (Hcfg & Hsent & Hticks).
    change (ticks (snd (clearCache env w))) with (ticks w) in Hticks.
    split_and!; [exact Hcfg|exact Hsent|lia].
  - rewrite run_checkOrThrow.
    destruct (validate_frame v payload env w) as (Hcfg & Hsent & Hticks).
    split_and!; [exact Hcfg|exact Hsent|lia].
  - simpl. split_and!; [reflexivity| |lia].
    exists []. rewrite app_nil_r. split; [reflexivity|simpl; lia].
Qed.

(** X14.  An invalid verdict is cached like a valid one: when the server has
    answered [is_valid: false] and [checkOrThrow] is called before the entry
    is [cacheTTL] old, it throws a [ValidationError] with the status of that
    verdict without sending a request (its reason is the one of the verdict
    in src/index.ts, and has [' (cached)'] appended in the second copy). *)
Theorem checkOrThrow_on_cached_invalid_verdict (v : impl)
    (payload payload' : option ValidationRequestPayload.t)
    (env : Env) (w : World) (data : ValidationApiResponse.t) :
  attempts_remote env w ->
  attempt v payload env w = Resolved data ->
  ValidationApiResponse.is_valid data = false ->
  clock env (3 + ticks w) - clock env (2 + ticks w)
    < Config.cacheTTL (LicenseAgent.config (this w)) ->
  let w1 := snd (validate v payload env w) in
  let reason :=
    match v with
    | index_ts => ValidationApiResponse.reason data
    | part_002 => Val (plus_str (ValidationApiResponse.reason data) " (cached)")
    end in
  fst (checkOrThrow v payload' env w1)
  = Throw (ValidationError (or_else reason "License validation failed") reason
             (ValidationApiResponse.status data) (expiresAt_of env data)
             (ValidationApiResponse.allowed_data data))
  /\ posted (snd (checkOrThrow v payload' env w1)) = posted w1
  /\ posted w1
     = (posted w ++ [requestData v (LicenseAgent.config (this w)) payload])%list.
Proof.
  intros Hremote Hpost Hinvalid Hwindow w1 reason. subst w1 reason.
  rewrite checkOrThrow_fst, checkOrThrow_snd.
  rewrite (validate_stale v payload env w Hremote).
  rewrite (validate_remote_resolved v payload env w _ data Hpost).
  cbv zeta. simpl snd.
  match goal with
  | |- context [validate v payload' env ?w1] =>
      rewrite (validate_fresh v payload' env w1 _ eq_refl Hwindow)
  end.
  destruct v; unfold check, cachedResult; simpl; rewrite Hinvalid; simpl;
    now split_and!.
Qed.

(** ** The added theorems at concrete worlds *)

Lemma reachable_after_first_validate v env config agent :
  LicenseAgent_new config = Normal agent ->
  reachable v env (snd (validate v None env (new_world agent))).
Proof.
  intros Hnew. rewrite <- run_validate.
  apply reachable_call. now apply (reachable_new v env config).
Qed.

Lemma constructor_checks_required_fields_witness :
  exists agent, LicenseAgent_new Scenario.minimalConfig = Normal agent.
Proof.
  apply (proj1 (proj1 (constructor_checks_required_fields Scenario.minimalConfig))).
  split_and!; discriminate.
Defined.

Lemma constructor_applies_defaults_witness :
  let agent := Scenario.agentOf Scenario.minimalConfig in
  Config.cacheTTL (LicenseAgent.config agent) = 3600000
  /\ Config.gracePeriod (LicenseAgent.config agent) = 86400000
  /\ LicenseAgent.cache agent = None.
Proof.
  intros agent.
  assert (LicenseAgent_new Scenario.minimalConfig = Normal agent) as Hnew
    by reflexivity.
  destruct (constructor_applies_defaults Scenario.minimalConfig agent Hnew)
    as (H1 & H2 & H3 & _).
  split_and!; [exact H2|exact H3|exact H1].
Defined.

Lemma validate_fresh_is_read_only_witness :
  let env := Scenario.online Scenario.VALID_RESPONSE 10 in
  let w := Scenario.after_validate part_002 env in
  let payload := Some (ValidationRequestPayload.mk (Val Scenario.dynamicMeta)) in
  fst (validate part_002 payload env (snd (validate part_002 None env w)))
  = fst (validate part_002 None env w)
  /\ posted (snd (validate part_002 payload env (snd (validate part_002 None env w))))
     = posted w.
Proof.
  intros env w payload.
  assert (LicenseAgent.cache (this w) = Some (Scenario.first_entry 10)) as Hc
    by (vm_compute; reflexivity).
  assert (clock env (ticks w) - CacheEntry.timestamp (Scenario.first_entry 10)
          < Config.cacheTTL (LicenseAgent.config (this w))) as H1
    by (vm_compute; reflexivity).
  assert (clock env (S (ticks w)) - CacheEntry.timestamp (Scenario.first_entry 10)
          < Config.cacheTTL (LicenseAgent.config (this w))) as H2
    by (vm_compute; reflexivity).
  destruct (validate_fresh_is_read_only part_002 None payload env w _ Hc H1 H2)
    as (_ & _ & H3 & H4).
  split; [exact H3|exact H4].
Defined.

Lemma checkOrThrow_returns_iff_valid_witness :
  let env := Scenario.outage Scenario.VALID_RESPONSE 1100 in
  let w := Scenario.after_validate index_ts env in
  fst (checkOrThrow index_ts None env w) = Normal tt.
Proof.
  intros env w.
  destruct (checkOrThrow_returns_iff_valid index_ts env w None
              (reachable_after_validate index_ts env)) as (_ & Hiff).
  apply Hiff. vm_compute. reflexivity.
Defined.

Lemma checkOrThrow_error_kinds_witness :
  let env := Scenario.offline 10 in
  let w := new_world Scenario.agent in
  ValidationResult.isValid (fst (validate index_ts None env w)) = false.
Proof.
  intros env w.
  assert (reachable index_ts env w) as Hreach
    by (apply (reachable_new index_ts env Scenario.BASE_CONFIG); reflexivity).
  assert (fst (checkOrThrow index_ts None env w)
          = Throw (NetworkError "Failed to connect to license server"
                     (Some (Error "Network Failure")))) as Hthrow
    by (vm_compute; reflexivity).
  exact (proj1 (checkOrThrow_error_kinds index_ts env w None _ Hreach Hthrow)).
Defined.

Lemma checkOrThrow_on_failed_request_witness :
  let env := Scenario.outage Scenario.INVALID_RESPONSE_REVOKED 1100 in
  let w := Scenario.after_validate index_ts env in
  fst (checkOrThrow index_ts None env w)
  = Throw (NetworkError "Failed to connect to license server"
             (Some (Error "Connection refused"))).
Proof.
  intros env w.
  assert (attempts_remote env w) as Hr by (vm_compute; discriminate).
  assert (attempt index_ts None env w = Rejected (Error "Connection refused")) as Hp
    by (vm_compute; reflexivity).
  destruct (checkOrThrow_on_failed_request index_ts None env w _ Hr Hp)
    as (_ & Hthrow & _).
  eapply Hthrow.
  - vm_compute. reflexivity.
  - left. reflexivity.
Defined.

Lemma no_grace_when_grace_within_ttl_witness :
  let env := Scenario.outage Scenario.VALID_RESPONSE 300 in
  let agent := Scenario.agentOf Scenario.shortGraceConfig in
  let w := snd (validate index_ts None env (new_world agent)) in
  ValidationResult.isGracePeriod (fst (validate index_ts None env w)) <> Some true.
Proof.
  intros env agent w.
  apply no_grace_when_grace_within_ttl.
  - apply (reachable_after_first_validate index_ts env Scenario.shortGraceConfig).
    reflexivity.
  - vm_compute. discriminate.
Defined.

Lemma cache_entry_is_stamped_by_clock_witness :
  let env := Scenario.online Scenario.VALID_RESPONSE 10 in
  let w := Scenario.after_validate index_ts env in
  0 <= now_at env w - CacheEntry.timestamp (Scenario.first_entry 10).
Proof.
  intros env w.
  assert (LicenseAgent.cache (this w) = Some (Scenario.first_entry 10)) as Hc
    by (vm_compute; reflexivity).
  destruct (cache_entry_is_stamped_by_clock index_ts env w _
              (reachable_after_validate index_ts env) Hc)
    as (k & _ & _ & _ & Hmono).
  apply Hmono. intros n m Hnm. simpl. lia.
Defined.

Lemma nonpositive_ttl_disables_cache_witness :
  let env := Scenario.online Scenario.VALID_RESPONSE 10 in
  let agent := Scenario.agentOf Scenario.noCacheConfig in
  let w := snd (validate index_ts None env (new_world agent)) in
  length (posted (snd (validate index_ts None env w))) = 2%nat.
Proof.
  intros env agent w.
  rewrite (nonpositive_ttl_disables_cache index_ts env w None).
  - vm_compute. reflexivity.
  - apply (reachable_after_first_validate index_ts env Scenario.noCacheConfig).
    reflexivity.
  - intros n m Hnm. simpl. lia.
  - vm_compute. discriminate.
Defined.

Lemma grace_period_is_not_renewed_witness :
  let env := Scenario.outage Scenario.VALID_RESPONSE 6000 in
  let w := Scenario.after_validate index_ts env in
  let w1 := snd (validate index_ts None env w) in
  this w1 = this w
  /\ ValidationResult.isGracePeriod (fst (validate index_ts None env w1)) <> Some true.
Proof.
  intros env w w1.
  assert (clock env (ticks w) <= clock env (S (ticks w))) as Hclock
    by (vm_compute; discriminate).
  assert (attempts_remote env w) as Hr by (vm_compute; discriminate).
  assert (attempt index_ts None env w = Rejected (Error "Connection refused")) as Hp
    by (vm_compute; reflexivity).
  assert (attempt index_ts None env w1 = Rejected (Error "Connection refused")) as Hp1
    by (vm_compute; reflexivity).
  destruct (grace_period_is_not_renewed index_ts None None env w _ _ Hclock Hr Hp Hp1)
    as (Hthis & _ & Hgrace).
  split; [exact Hthis|].
  apply Hgrace. vm_compute. discriminate.
Defined.

Lemma forceValidate_failure_drops_cache_witness :
  let env := Scenario.outage Scenario.VALID_RESPONSE 1100 in
  let w := Scenario.after_validate index_ts env in
  let w1 := snd (forceValidate index_ts None env w) in
  LicenseAgent.cache (this w) = Some (Scenario.first_entry 1100)
  /\ LicenseAgent.cache (this w1) = None
  /\ ValidationResult.reason (fst (validate index_ts None env w1))
     = Val "network_error_no_cache".
Proof.
  intros env w w1.
  assert (attempt index_ts None env w = Rejected (Error "Connection refused")) as Hp
    by (vm_compute; reflexivity).
  assert (attempt index_ts None env w1 = Rejected (Error "Connection refused")) as Hp1
    by (vm_compute; reflexivity).
  destruct (forceValidate_failure_drops_cache index_ts None None env w _ _ Hp Hp1)
    as (H1 & H2 & _).
  split_and!; [vm_compute; reflexivity|exact H1|exact H2].
Defined.

Lemma requestData_without_dynamic_metadata_witness :
  ApiValidateRequest.metadata
    (requestData index_ts (LicenseAgent.config Scenario.agentWithMeta) None)
  = Some Scenario.staticMeta.
Proof.
  destruct (requestData_without_dynamic_metadata index_ts
              (LicenseAgent.config Scenario.agentWithMeta)) as (_ & _ & Hstatic & _).
  apply Hstatic; [reflexivity|].
  intros Hempty. apply (f_equal (fun m => m !! "deviceType")) in Hempty.
  vm_compute in Hempty. discriminate Hempty.
Defined.

Lemma checkOrThrow_on_cached_invalid_verdict_witness :
  let env := Scenario.online Scenario.INVALID_RESPONSE_REVOKED 10 in
  let w := new_world Scenario.agent in
  let w1 := snd (validate part_002 None env w) in
  fst (checkOrThrow part_002 None env w1)
  = Throw (ValidationError "revoked (cached)" (Val "revoked (cached)")
             (Val "revoked") Null JUndefined)
  /\ length (posted (snd (checkOrThrow part_002 None env w1))) = 1%nat.
Proof.
  intros env w w1.
  assert (attempts_remote env w) as Hr by exact I.
  assert (attempt part_002 None env w = Resolved Scenario.INVALID_RESPONSE_REVOKED)
    as Hp by reflexivity.
  assert (clock env (3 + ticks w) - clock env (2 + ticks w)
          < Config.cacheTTL (LicenseAgent.config (this w))) as Hw
    by (vm_compute; reflexivity).
  destruct (checkOrThrow_on_cached_invalid_verdict part_002 None None env w _
              Hr Hp eq_refl Hw) as (H1 & H2 & H3).
  split; [exact H1|].
  fold w1 in H2, H3. rewrite H2, H3. reflexivity.
Defined.
